(** * make_transparent_blocks.py: a shallow embedding and its properties

    The script builds a Minecraft Bedrock resource pack: it blanks every
    block texture whose name does not mention "diamond", writes a manifest
    and a default icon, and zips the pack folder into a .mcpack file.

    The program is a sequence of file-system and library calls, so the
    embedding is a state-and-exception monad over a [world]: the file
    system (a finite map from paths to nodes), the log of mutating library
    calls performed so far, and the source of random UUIDs.

    Conventions of the model.
    - A path is the list of its components, innermost first: [name p] is
      the head, [parent p] the tail, the root is [[]].  Paths are absolute
      and already resolved ([Path.resolve()] and argparse are outside the
      model); there are no symbolic links, permissions or special files.
    - File names are strings of 8-bit characters; [str.lower] acts on the
      ASCII letters.  Globbing is case-sensitive (POSIX).
    - pathlib is the one of Python 3.8 to 3.12 ([suffix] is the text from the
      last dot, if that dot is neither first nor last in the name).
    - A file's contents are recorded by what was stored (a PNG encoding of
      an image, a text, a zip of a tree, or arbitrary bytes), time stamps
      and other metadata are not modelled. *)

From Stdlib Require Import Ascii String.
From stdpp Require Import gmap strings list fin_maps pretty.

Local Open Scope string_scope.
Set Warnings "-register-all".

(* ===================================================================== *)
(** * Python strings *)
(* ===================================================================== *)

Module Str.

(** [c.lower()] on one ASCII character. *)
Definition lower_char (c : ascii) : ascii :=
  let n := nat_of_ascii c in
  if (65 <=? n)%nat && (n <=? 90)%nat then ascii_of_nat (n + 32) else c.

(** [s.lower()] *)
Fixpoint lower (s : string) : string :=
  match s with
  | EmptyString => EmptyString
  | String c s' => String (lower_char c) (lower s')
  end.

(** [s.startswith(p)] *)
Fixpoint startswith (p s : string) : bool :=
  match p, s with
  | EmptyString, _ => true
  | String a p', String b s' => if Ascii.eqb a b then startswith p' s' else false
  | String _ _, EmptyString => false
  end.

(** [needle in hay] *)
Fixpoint contains (needle hay : string) : bool :=
  startswith needle hay ||
  match hay with
  | EmptyString => false
  | String _ hay' => contains needle hay'
  end.

(** [s.endswith(suf)] *)
Fixpoint endswith (suf s : string) : bool :=
  String.eqb s suf ||
  match s with
  | EmptyString => false
  | String _ s' => endswith suf s'
  end.

(** [s.rfind(c)], with [None] for Python's [-1]. *)
Fixpoint rfind (c : ascii) (s : string) : option nat :=
  match s with
  | EmptyString => None
  | String a s' =>
      match rfind c s' with
      | Some i => Some (S i)
      | None => if Ascii.eqb a c then Some 0%nat else None
      end
  end.

(** [s[:i]] *)
Fixpoint upto (i : nat) (s : string) : string :=
  match i, s with
  | S i', String c s' => String c (upto i' s')
  | _, _ => EmptyString
  end.

(** [s[i:]] *)
Fixpoint from (i : nat) (s : string) : string :=
  match i, s with
  | S i', String _ s' => from i' s'
  | _, _ => s
  end.

End Str.

(* ===================================================================== *)
(** * pathlib.PurePath *)
(* ===================================================================== *)

(** Components, innermost first. *)
Abbreviation path := (list string).

(** [p.name]: empty for the root. *)
Definition name (p : path) : string :=
  match p with
  | [] => ""
  | n :: _ => n
  end.

(** [p.parent]: the root is its own parent. *)
Definition parent (p : path) : path := tail p.

(** [p / n] *)
Notation "p // n" := (@cons string n p) (at level 40, left associativity).

(** The position of the dot that starts the suffix of a name:
    [i = name.rfind('.')] when [0 < i < len(name) - 1]. *)
Definition suffix_pos (nm : string) : option nat :=
  match Str.rfind "."%char nm with
  | Some i => if (0 <? i)%nat && (i <? String.length nm - 1)%nat then Some i else None
  | None => None
  end.

(** [PurePath.suffix] and [PurePath.stem], on the name. *)
Definition suffix_of (nm : string) : string :=
  match suffix_pos nm with
  | Some i => Str.from i nm
  | None => ""
  end.

Definition stem_of (nm : string) : string :=
  match suffix_pos nm with
  | Some i => Str.upto i nm
  | None => nm
  end.

Definition suffix (p : path) : string := suffix_of (name p).
Definition stem (p : path) : string := stem_of (name p).

(** Python exceptions the script can meet. [FileNotFoundError] is the only
    one the script raises itself; the others come out of library calls. *)
Inductive exn :=
| FileNotFoundError
| FileExistsError
| NotADirectoryError
| IsADirectoryError
| SameFileError
| ValueError
| OSError.

Inductive outcome (A : Type) :=
| Ok (a : A)
| Raise (e : exn).
Arguments Ok {A} a.
Arguments Raise {A} e.

(** [PurePath.with_suffix(suffix)]:
    the suffix must be empty or start with a dot, must not be a lone dot
    and must not hold a separator; the path must have a name. *)
Definition with_suffix (p : path) (sfx : string) : outcome path :=
  if Str.contains "/" sfx then Raise ValueError
  else if (negb (String.eqb sfx "") && negb (Str.startswith "." sfx))
          || String.eqb sfx "." then Raise ValueError
  else
    let nm := name p in
    if String.eqb nm "" then Raise ValueError
    else
      let old_suffix := suffix_of nm in
      let nm' :=
        if String.eqb old_suffix "" then nm +:+ sfx
        else Str.upto (String.length nm - String.length old_suffix) nm +:+ sfx in
      Ok (nm' :: parent p).

(* ===================================================================== *)
(** * PIL.Image *)
(* ===================================================================== *)

Inductive mode := RGBA | RGB | L.

(** A colour as the tuple the script passes: (r, g, b, a). *)
Definition colour : Type := Z * Z * Z * Z.

Record image := {
  im_mode : mode;
  im_width : nat;
  im_height : nat;
  im_data : list colour;      (* row after row, [im_width * im_height] pixels *)
}.

(** [Image.new(mode, (w, h), colour)]: every pixel is [colour]. *)
Definition Image_new (m : mode) (size : nat * nat) (c : colour) : image :=
  {| im_mode := m;
     im_width := fst size;
     im_height := snd size;
     im_data := replicate (fst size * snd size) c |}.

(** [im.getpixel((x, y))] *)
Definition getpixel (im : image) (x y : nat) : option colour :=
  if (x <? im_width im)%nat && (y <? im_height im)%nat
  then im_data im !! (y * im_width im + x)%nat
  else None.

(** "a [w] x [h] RGBA image with every pixel equal to [c]" *)
Definition uniform_rgba (w h : nat) (c : colour) (im : image) : Prop :=
  im_mode im = RGBA ∧ im_width im = w ∧ im_height im = h ∧
  length (im_data im) = (w * h)%nat ∧
  ∀ x y, (x < w)%nat → (y < h)%nat → getpixel im x y = Some c.

(* ===================================================================== *)
(** * json.dumps(obj, indent=2) *)
(* ===================================================================== *)

Inductive json :=
| JInt (n : Z)
| JStr (s : string)
| JList (items : list json)
| JDict (items : list (string * json)).   (* insertion order, as a dict keeps it *)

Module Json.

(** The double quote character, as a string. *)
Definition dquote : string := String (ascii_of_nat 34) "".

Definition hex_digit (n : nat) : ascii :=
  ascii_of_nat (if (n <? 10)%nat then 48 + n else 87 + n).

(** [ensure_ascii] escaping of one character: the quote and the backslash,
    the short escapes, and [\u00XX] for every other character outside the
    printable range from the space to the tilde (DEL included). *)
Definition escape_char (c : ascii) : string :=
  let n := nat_of_ascii c in
  if (n =? 34)%nat then "\" +:+ dquote
  else if (n =? 92)%nat then "\\"
  else if (n =? 10)%nat then "\n"
  else if (n =? 13)%nat then "\r"
  else if (n =? 9)%nat then "\t"
  else if (n =? 8)%nat then "\b"
  else if (n =? 12)%nat then "\f"
  else if (n <? 32)%nat || (126 <? n)%nat
       then "\u00" +:+ String (hex_digit (n / 16)) (String (hex_digit (n mod 16)) "")
  else String c "".

Fixpoint escape (s : string) : string :=
  match s with
  | EmptyString => ""
  | String c s' => escape_char c +:+ escape s'
  end.

Definition quote (s : string) : string := dquote +:+ escape s +:+ dquote.

Fixpoint spaces (n : nat) : string :=
  match n with
  | O => ""
  | S n' => " " +:+ spaces n'
  end.

(** Items joined by [",\n" + indent]. *)
Fixpoint join (sep : string) (l : list string) : string :=
  match l with
  | [] => ""
  | [x] => x
  | x :: l' => x +:+ sep +:+ join sep l'
  end.

Definition newline : string := String (ascii_of_nat 10) "".

(** The encoder at nesting [level], two spaces a level. *)
Fixpoint encode (level : nat) (v : json) : string :=
  let inner := newline +:+ spaces (2 * S level) in
  let outer := newline +:+ spaces (2 * level) in
  match v with
  | JInt n => pretty n
  | JStr s => quote s
  | JList [] => "[]"
  | JList items =>
      "[" +:+ inner +:+
      join ("," +:+ inner) (map (encode (S level)) items) +:+
      outer +:+ "]"
  | JDict [] => "{}"
  | JDict items =>
      "{" +:+ inner +:+
      join ("," +:+ inner)
        (map (λ kv, quote (fst kv) +:+ ": " +:+ encode (S level) (snd kv)) items) +:+
      outer +:+ "}"
  end.

Definition dumps (v : json) : string := encode 0 v.

End Json.

(* ===================================================================== *)
(** * The world: file system, effect log, random source *)
(* ===================================================================== *)

(** What a file holds, and what a path leads to.  A zip archive holds the
    tree it was made from, by paths relative to the archived folder. *)
Inductive data :=
| Blob (bytes : list Byte.byte)
| Png (im : image)
| Text (s : string)
| Zip (members : gmap path node)
with node :=
| Dir
| File (d : data).

(** The mutating library calls, logged when they succeed. *)
Inductive event :=
| EvMkdir (p : path)
| EvCopy (src dst : path)
| EvSave (im : image) (p : path)
| EvWriteText (p : path) (s : string)
| EvMakeArchive (zip root : path)
| EvUnlink (p : path)
| EvRename (src dst : path).

Record world := {
  fs : gmap path node;
  log : list event;             (* oldest first *)
  uuid_source : nat → string;   (* the outcomes of the calls of uuid4, in order *)
  uuid_drawn : nat;             (* how many were drawn *)
}.

Definition set_fs (m : gmap path node) (w : world) : world :=
  {| fs := m; log := log w; uuid_source := uuid_source w; uuid_drawn := uuid_drawn w |}.

Definition emit (e : event) (w : world) : world :=
  {| fs := fs w; log := log w ++ [e]; uuid_source := uuid_source w;
     uuid_drawn := uuid_drawn w |}.

(** Computations: a result or an exception, and the world left behind
    (an exception does not undo what was done before it). *)
Definition M (A : Type) : Type := world → outcome A * world.

Definition raise {A} (e : exn) : M A := λ w, (Raise e, w).

#[global] Instance M_ret : MRet M := λ A a w, (Ok a, w).
#[global] Instance M_bind : MBind M :=
  λ A B k c w,
    match c w with
    | (Ok a, w') => k a w'
    | (Raise e, w') => (Raise e, w')
    end.

(** Nothing to do: [pass], or a bare [return]. *)
Definition pass : M unit := mret tt.

(** [for x in l: body(x)] *)
Fixpoint for_each {A} (l : list A) (body : A → M unit) : M unit :=
  match l with
  | [] => pass
  | x :: l' => body x;; for_each l' body
  end.

(* ===================================================================== *)
(** * The file system calls *)
(* ===================================================================== *)

(** The root is always there, and a directory. *)
Definition stat (m : gmap path node) (p : path) : option node :=
  match p with
  | [] => Some Dir
  | _ => m !! p
  end.

Definition is_dir_in (m : gmap path node) (p : path) : bool :=
  match stat m p with
  | Some Dir => true
  | _ => false
  end.

Definition exists_in (m : gmap path node) (p : path) : bool :=
  match stat m p with
  | Some _ => true
  | None => false
  end.

(** [p.is_dir()], [p.exists()] *)
Definition Path_is_dir (p : path) : M bool := λ w, (Ok (is_dir_in (fs w) p), w).
Definition Path_exists (p : path) : M bool := λ w, (Ok (exists_in (fs w) p), w).

(** [open(p, "wb")]: what it takes to create or truncate [p]. *)
Definition open_w (m : gmap path node) (p : path) : outcome unit :=
  match stat m p with
  | Some Dir => Raise IsADirectoryError
  | Some (File _) => Ok tt
  | None =>
      match stat m (parent p) with
      | Some Dir => Ok tt
      | Some (File _) => Raise NotADirectoryError
      | None => Raise FileNotFoundError
      end
  end.

(** [open(p, "rb").read()] *)
Definition open_r (m : gmap path node) (p : path) : outcome data :=
  match stat m p with
  | Some (File d) => Ok d
  | Some Dir => Raise IsADirectoryError
  | None => Raise FileNotFoundError
  end.

(** [os.mkdir(p)] *)
Definition os_mkdir (m : gmap path node) (p : path) : outcome (gmap path node) :=
  match stat m p with
  | Some _ => Raise FileExistsError
  | None =>
      match stat m (parent p) with
      | Some Dir => Ok (<[p := Dir]> m)
      | Some (File _) => Raise NotADirectoryError
      | None => Raise FileNotFoundError
      end
  end.

(** [p.mkdir(parents=True, exist_ok=True)], by pathlib's recursion: try
    [os.mkdir]; on [FileNotFoundError] make the parent first and try again;
    on another [OSError] accept an existing directory. *)
Fixpoint mkdir_parents (m : gmap path node) (p : path) : outcome (gmap path node) :=
  match os_mkdir m p with
  | Ok m' => Ok m'
  | Raise FileNotFoundError =>
      match p with
      | [] => Raise FileNotFoundError
      | _ :: d =>
          match mkdir_parents m d with
          | Ok m1 =>
              match os_mkdir m1 p with
              | Ok m2 => Ok m2
              | Raise FileNotFoundError => Raise FileNotFoundError
              | Raise e => if is_dir_in m1 p then Ok m1 else Raise e
              end
          | Raise e => Raise e
          end
      end
  | Raise e => if is_dir_in m p then Ok m else Raise e
  end.

Definition Path_mkdir (p : path) : M unit :=
  λ w, match mkdir_parents (fs w) p with
       | Ok m' => (Ok tt, emit (EvMkdir p) (set_fs m' w))
       | Raise e => (Raise e, w)
       end.

(** [fnmatch] for the patterns of the form [*literal]; other patterns are
    taken as literal names. *)
Definition fnmatch (pattern nm : string) : bool :=
  match pattern with
  | String "*" lit => Str.endswith lit nm
  | _ => String.eqb pattern nm
  end.

(** The names of the entries directly in [d]. *)
Definition listdir (m : gmap path node) (d : path) : list string :=
  omap (λ kv : path * node,
          match fst kv with
          | n :: d' => if decide (d' = d) then Some n else None
          | [] => None
          end) (map_to_list m).

(** The entries of [d] that match [pattern], files and directories alike,
    each once, in the order of the listing. *)
Definition glob_names (m : gmap path node) (d : path) (pattern : string) : list string :=
  filter (λ n, fnmatch pattern n = true) (listdir m d).

(** [list(d.glob(pattern))], as names. *)
Definition Path_glob (d : path) (pattern : string) : M (list string) :=
  λ w, (Ok (glob_names (fs w) d pattern), w).

(** [shutil.copy2(src, dst)]: into [dst / src.name] if [dst] is a
    directory; refuses to copy a file onto itself. *)
Definition shutil_copy2 (src dst : path) : M path :=
  λ w,
    let m := fs w in
    let dst' := if is_dir_in m dst then dst // name src else dst in
    if bool_decide (src = dst') && exists_in m src then (Raise SameFileError, w)
    else
      match open_r m src with
      | Raise e => (Raise e, w)
      | Ok d =>
          match open_w m dst' with
          | Raise e => (Raise e, w)
          | Ok _ => (Ok dst', emit (EvCopy src dst') (set_fs (<[dst' := File d]> m) w))
          end
      end.

(** [os.path.splitext(name)[1]]: the text from the last dot on, unless
    only dots come before it. *)
Fixpoint only_dots (s : string) : bool :=
  match s with
  | EmptyString => true
  | String c s' => Ascii.eqb c "."%char && only_dots s'
  end.

Definition splitext_ext (nm : string) : string :=
  match Str.rfind "."%char nm with
  | Some i => if only_dots (Str.upto i nm) then "" else Str.from i nm
  | None => ""
  end.

(** [im.save(p)]: the format comes from the extension of the name.  Only
    PNG is modelled: every name the script saves to ends in [.png], whose
    extension is [.png], or nothing when only dots come before it, and
    PIL raises [ValueError] for an unknown extension. *)
Definition Image_save (im : image) (p : path) : M unit :=
  λ w,
    if negb (String.eqb (Str.lower (splitext_ext (name p))) ".png")
    then (Raise ValueError, w)
    else
      match open_w (fs w) p with
      | Raise e => (Raise e, w)
      | Ok _ => (Ok tt, emit (EvSave im p) (set_fs (<[p := File (Png im)]> (fs w)) w))
      end.

(** [p.write_text(s)] *)
Definition Path_write_text (p : path) (s : string) : M unit :=
  λ w,
    match open_w (fs w) p with
    | Raise e => (Raise e, w)
    | Ok _ => (Ok tt, emit (EvWriteText p s) (set_fs (<[p := File (Text s)]> (fs w)) w))
    end.

(** [str(uuid.uuid4())]: the next outcome of the random source. *)
Definition uuid4 : M string :=
  λ w, (Ok (uuid_source w (uuid_drawn w)),
        {| fs := fs w; log := log w; uuid_source := uuid_source w;
           uuid_drawn := S (uuid_drawn w) |}).

(** [p.relative_to(root)]: the components of [p] below [root]. *)
Definition relative_to (root p : path) : option path :=
  let k := (length p - length root)%nat in
  if decide (drop k p = root) then Some (take k p) else None.

(** The tree below [root], by relative paths; [root] itself is left out,
    as [make_archive] leaves out the top folder. *)
Definition subtree (m : gmap path node) (root : path) : gmap path node :=
  list_to_map
    (omap (λ kv : path * node,
             match relative_to root (fst kv) with
             | Some (r :: rel) => Some (r :: rel, snd kv)
             | _ => None
             end) (map_to_list m)).

(** [base_name + ext], on the last component. *)
Definition add_ext (base : path) (ext : string) : path :=
  match base with
  | [] => [ext]
  | n :: d => (n +:+ ext) :: d
  end.

(** [shutil.make_archive(base_name, "zip", root_dir)]: [root_dir] must be a
    directory; the folder of the archive is made if it is missing; the
    archive [base_name + ".zip"] is opened for writing, and then the tree
    is walked.  An archive that lies inside [root_dir] therefore lists
    itself, in the model as the empty file it is when it has just been
    opened.  The call is logged as one event, when it returns. *)
Definition shutil_make_archive (base_name root_dir : path) : M path :=
  λ w,
    let m := fs w in
    match stat m root_dir with
    | None => (Raise FileNotFoundError, w)
    | Some (File _) => (Raise NotADirectoryError, w)
    | Some Dir =>
        let zip_filename := add_ext base_name ".zip" in
        let archive_dir := parent base_name in
        match (if exists_in m archive_dir then Ok m else mkdir_parents m archive_dir) with
        | Raise e => (Raise e, w)
        | Ok m1 =>
            match open_w m1 zip_filename with
            | Raise e => (Raise e, set_fs m1 w)
            | Ok _ =>
                let m2 := <[zip_filename := File (Blob [])]> m1 in
                let m3 := <[zip_filename := File (Zip (subtree m2 root_dir))]> m2 in
                (Ok zip_filename, emit (EvMakeArchive zip_filename root_dir) (set_fs m3 w))
            end
        end
    end.

(** [p.unlink()]; unlinking a directory is refused (with [EISDIR] on Linux,
    the errno taken here). *)
Definition Path_unlink (p : path) : M unit :=
  λ w,
    match stat (fs w) p with
    | None => (Raise FileNotFoundError, w)
    | Some Dir => (Raise IsADirectoryError, w)
    | Some (File _) => (Ok tt, emit (EvUnlink p) (set_fs (delete p (fs w)) w))
    end.

(** Moving a directory: every path at or below [src] goes below [dst]. *)
Definition move_tree (m : gmap path node) (src dst : path) : gmap path node :=
  list_to_map
    (map (λ kv : path * node,
            match relative_to src (fst kv) with
            | Some rel => ((rel ++ dst)%list, snd kv)
            | None => kv
            end) (map_to_list m)).

(** [src.rename(dst)] (POSIX): a file replaces a file, a directory replaces
    an empty directory, and no directory moves below itself. *)
Definition Path_rename (src dst : path) : M unit :=
  λ w,
    let m := fs w in
    match stat m src with
    | None => (Raise FileNotFoundError, w)
    | Some (File d) =>
        match stat m dst with
        | Some Dir => (Raise IsADirectoryError, w)
        | Some (File _) =>
            (Ok tt, emit (EvRename src dst) (set_fs (<[dst := File d]> (delete src m)) w))
        | None =>
            match stat m (parent dst) with
            | Some Dir =>
                (Ok tt, emit (EvRename src dst) (set_fs (<[dst := File d]> (delete src m)) w))
            | Some (File _) => (Raise NotADirectoryError, w)
            | None => (Raise FileNotFoundError, w)
            end
        end
    | Some Dir =>
        if bool_decide (src = dst) then (Ok tt, emit (EvRename src dst) w)
        else if bool_decide (is_Some (relative_to src dst)) then (Raise OSError, w)
        else
          match stat m dst with
          | Some (File _) => (Raise NotADirectoryError, w)
          | Some Dir =>
              if bool_decide (subtree m dst = ∅)
              then (Ok tt, emit (EvRename src dst) (set_fs (move_tree (delete dst m) src dst) w))
              else (Raise OSError, w)
          | None =>
              match stat m (parent dst) with
              | Some Dir => (Ok tt, emit (EvRename src dst) (set_fs (move_tree m src dst) w))
              | Some (File _) => (Raise NotADirectoryError, w)
              | None => (Raise FileNotFoundError, w)
              end
          end
    end.

(* ===================================================================== *)
(** * The script *)
(* ===================================================================== *)

(** [Image.new("RGBA", (16, 16), (0, 0, 0, 0))] *)
Definition transparent_img : image := Image_new RGBA (16, 16)%nat (0, 0, 0, 0)%Z.

(** ["diamond" in png_path.stem.lower()] *)
Definition is_diamond (png_name : string) : bool :=
  Str.contains "diamond" (Str.lower (stem_of png_name)).

(** The body of the loop over [source_blocks.glob("*.png")]. *)
Definition texture_step (source_blocks target_blocks : path) (png_name : string) : M unit :=
  let png_path := source_blocks // png_name in
  let target_path := target_blocks // name png_path in
  (* Keep diamond-related textures visible *)
  if is_diamond (name png_path)
  then shutil_copy2 png_path target_path;; pass
  else Image_save transparent_img target_path.

Definition make_transparent_blocks (source_blocks target_blocks : path) : M unit :=
  is_d ← Path_is_dir source_blocks;
  if negb is_d then raise FileNotFoundError
  else
    Path_mkdir target_blocks;;
    pngs ← Path_glob source_blocks "*.png";
    for_each pngs (texture_step source_blocks target_blocks).

(** The manifest, as the dict the script builds. *)
Definition manifest (nm description header_uuid module_uuid : string) : json :=
  JDict [
    ("format_version", JInt 2);
    ("header", JDict [
       ("description", JStr description);
       ("name", JStr nm);
       ("uuid", JStr header_uuid);
       ("version", JList [JInt 1; JInt 0; JInt 0]);
       ("min_engine_version", JList [JInt 1; JInt 16; JInt 0])
     ]);
    ("modules", JList [
       JDict [
         ("type", JStr "resources");
         ("uuid", JStr module_uuid);
         ("version", JList [JInt 1; JInt 0; JInt 0])
       ]
     ])
  ].

Definition write_manifest (pack_root : path) (nm description : string) : M unit :=
  Path_mkdir pack_root;;
  header_uuid ← uuid4;
  module_uuid ← uuid4;
  Path_write_text (pack_root // "manifest.json")
    (Json.dumps (manifest nm description header_uuid module_uuid)).

(** [Image.new("RGBA", (256, 256), (0, 0, 0, 0))] *)
Definition default_icon : image := Image_new RGBA (256, 256)%nat (0, 0, 0, 0)%Z.

Definition write_default_icon (pack_root : path) : M unit :=
  let icon_path := pack_root // "pack_icon.png" in
  present ← Path_exists icon_path;
  if (present : bool) then pass
  else Image_save default_icon icon_path.

(** A [with_suffix] that raises in the monad. *)
Definition lift {A} (o : outcome A) : M A := λ w, (o, w).

Definition build_mcpack (pack_root output_file : path) : M unit :=
  output_file ← lift (with_suffix output_file ".mcpack");
  temp_zip ← lift (with_suffix output_file ".zip");
  (* Create zip archive *)
  base_name ← lift (with_suffix temp_zip "");
  shutil_make_archive base_name pack_root;;
  (* Rename .zip to .mcpack *)
  present ← Path_exists output_file;
  (if (present : bool) then Path_unlink output_file else pass);;
  Path_rename temp_zip output_file.

(** The parsed command line, with [source_textures] and [output_pack]
    resolved to absolute paths. *)
Record args := {
  source_textures : path;
  output_pack : path;
  arg_name : string;
  arg_description : string;
  no_mcpack : bool;
}.

Definition main (a : args) : M unit :=
  let source_root := source_textures a in
  is_d ← Path_is_dir source_root;
  if negb is_d then raise FileNotFoundError
  else
    let source_blocks := source_root // "blocks" in
    let pack_root := output_pack a in
    let target_blocks := pack_root // "textures" // "blocks" in
    (* Build textures into the pack *)
    make_transparent_blocks source_blocks target_blocks;;
    (* Manifest + icon *)
    write_manifest pack_root (arg_name a) (arg_description a);;
    write_default_icon pack_root;;
    (* Optional .mcpack archive *)
    if negb (no_mcpack a) then
      mcpack_path ← lift (with_suffix pack_root ".mcpack");
      build_mcpack pack_root mcpack_path
    else pass.

(* ===================================================================== *)
(** * Facts about strings and path names *)
(* ===================================================================== *)

Section string_facts.

#[local] Arguments String.append !_ _ / : simpl nomatch.

Lemma eqb_refl_true (s : string) : String.eqb s s = true.
Proof. apply String.eqb_refl. Qed.

Lemma append_nil_r (s : string) : s +:+ "" = s.
Proof. induction s as [|c s IH]; simpl; [done | by rewrite IH]. Qed.

Lemma append_length (s t : string) :
  String.length (s +:+ t) = (String.length s + String.length t)%nat.
Proof. induction s as [|c s IH]; simpl; [done | by rewrite IH]. Qed.

Lemma append_empty_inv (s t : string) : s +:+ t = "" → s = "" ∧ t = "".
Proof. destruct s; simpl; [done | discriminate]. Qed.

Lemma endswith_append (suf pre : string) : Str.endswith suf (pre +:+ suf) = true.
Proof.
  induction pre as [|c pre IH]; simpl String.append.
  - destruct suf; cbn [Str.endswith]; by rewrite String.eqb_refl.
  - cbn [Str.endswith]. rewrite IH. apply orb_true_r.
Qed.


Lemma upto_append (s t : string) : Str.upto (String.length s) (s +:+ t) = s.
Proof. induction s as [|c s IH]; simpl; [by destruct t | by rewrite IH]. Qed.

Lemma from_append (s t : string) : Str.from (String.length s) (s +:+ t) = t.
Proof. induction s as [|c s IH]; simpl; [by destruct t | done]. Qed.

Lemma upto_from (i : nat) (s : string) : Str.upto i s +:+ Str.from i s = s.
Proof.
  revert s; induction i as [|i IH]; intros [|c s]; simpl; try done.
  by rewrite IH.
Qed.

Lemma upto_length (i : nat) (s : string) :
  (i ≤ String.length s)%nat → String.length (Str.upto i s) = i.
Proof.
  revert s; induction i as [|i IH]; intros [|c s]; simpl; try done; try lia.
  intros H. rewrite IH; lia.
Qed.

Lemma from_length (i : nat) (s : string) :
  String.length (Str.from i s) = (String.length s - i)%nat.
Proof. revert s; induction i as [|i IH]; intros [|c s]; simpl; try done. Qed.

Lemma rfind_lt (c : ascii) (s : string) (i : nat) :
  Str.rfind c s = Some i → (i < String.length s)%nat.
Proof.
  revert i; induction s as [|a s IH]; simpl; intros i; [done |].
  destruct (Str.rfind c s) as [j|].
  - intros [= <-]. specialize (IH j eq_refl). lia.
  - destruct (Ascii.eqb a c); [intros [= <-]; lia | done].
Qed.

(** The last [c] of [b ++ c ++ e] is the one in the middle when [e] has none. *)
Lemma rfind_append (c : ascii) (b e : string) :
  Str.rfind c e = None →
  Str.rfind c (b +:+ String c e) = Some (String.length b).
Proof.
  intros He. induction b as [|a b IH]; simpl.
  - by rewrite He, Ascii.eqb_refl.
  - by rewrite IH.
Qed.

(** The suffix of [b.e]: a name with something before a dot and a dot-free
    extension after it. *)
Lemma suffix_pos_ext (b e : string) :
  b ≠ "" → e ≠ "" → Str.rfind "."%char e = None →
  suffix_pos (b +:+ String "."%char e) = Some (String.length b).
Proof.
  intros Hb He Hdot. unfold suffix_pos. rewrite rfind_append by done.
  rewrite append_length. simpl.
  destruct b as [|a b]; [done |]. destruct e as [|a' e]; [done |]. simpl.
  replace (0 <? S (String.length b))%nat with true by (symmetry; apply Nat.ltb_lt; lia).
  replace (S (String.length b) <? _)%nat with true by (symmetry; apply Nat.ltb_lt; lia).
  done.
Qed.

Lemma with_suffix_name (p : path) (sfx : string) (q : path) :
  with_suffix p sfx = Ok q →
  ∃ b, b ≠ "" ∧ q = (b +:+ sfx) :: parent p.
Proof.
  unfold with_suffix.
  destruct (Str.contains "/" sfx); [done |].
  destruct (_ || _); [done |].
  destruct (String.eqb (name p) "") eqn:Hnm; [done |].
  apply String.eqb_neq in Hnm.
  unfold suffix_of. destruct (suffix_pos (name p)) as [i|] eqn:Hpos.
  - unfold suffix_pos in Hpos.
    destruct (Str.rfind "."%char (name p)) as [j|] eqn:Hj; [| done].
    destruct (_ && _) eqn:Hb; [| done]. injection Hpos as ->.
    apply andb_true_iff in Hb as [H0 H1].
    apply Nat.ltb_lt in H0, H1. apply rfind_lt in Hj.
    assert (Hne : Str.from i (name p) ≠ "").
    { intros Hf. pose proof (from_length i (name p)) as Hl. rewrite Hf in Hl.
      simpl in Hl. lia. }
    apply String.eqb_neq in Hne. rewrite Hne. intros [= <-].
    rewrite from_length.
    replace (String.length (name p) - (String.length (name p) - i))%nat with i by lia.
    exists (Str.upto i (name p)). split; [| done].
    intros Hu. pose proof (upto_length i (name p)) as Hl. rewrite Hu in Hl.
    simpl in Hl. lia.
  - simpl. intros [= <-]. by exists (name p).
Qed.

(** Replacing the extension of [b.e]. *)
Lemma with_suffix_ext (b e : string) (d : path) (sfx : string) :
  b ≠ "" → e ≠ "" → Str.rfind "."%char e = None →
  Str.contains "/" sfx = false →
  (negb (String.eqb sfx "") && negb (Str.startswith "." sfx)) || String.eqb sfx "." = false →
  with_suffix ((b +:+ String "."%char e) :: d) sfx = Ok ((b +:+ sfx) :: d).
Proof.
  intros Hb He Hdot Hsep Hval. unfold with_suffix. rewrite Hsep, Hval. simpl.
  destruct (String.eqb (b +:+ String "."%char e) "") eqn:Hnm.
  { apply String.eqb_eq, append_empty_inv in Hnm as [_ ?]. done. }
  unfold suffix_of. rewrite suffix_pos_ext by done. rewrite from_append.
  simpl. rewrite append_length. simpl.
  replace (String.length b + S (String.length e) - S (String.length e))%nat
    with (String.length b) by lia.
  by rewrite upto_append.
Qed.

End string_facts.

(* ===================================================================== *)
(** * Facts about the file system calls *)
(* ===================================================================== *)

Section fs_facts.

Implicit Types (m : gmap path node) (p q d : path) (n : string).

Lemma stat_cons m n d : stat m (n :: d) = m !! (n :: d).
Proof. done. Qed.

Lemma stat_insert_ne m p q x : p ≠ q → stat (<[p := x]> m) q = stat m q.
Proof. intros Hne. destruct q; [done |]. simpl. by rewrite lookup_insert_ne. Qed.

Lemma stat_insert_eq m n d x : stat (<[n :: d := x]> m) (n :: d) = Some x.
Proof. simpl. by rewrite lookup_insert_eq. Qed.

Lemma stat_delete_ne m p q : p ≠ q → stat (delete p m) q = stat m q.
Proof. intros Hne. destruct q; [done |]. simpl. by rewrite lookup_delete_ne. Qed.

(** Whatever can be opened for writing, or made by [os.mkdir], has a name. *)
Lemma open_w_ok m p : open_w m p = Ok tt → p ≠ [] ∧ m !! p ≠ Some Dir.
Proof.
  unfold open_w. destruct p as [|n d]; [done |]. rewrite stat_cons.
  destruct (m !! (n :: d)) as [[|?]|]; try done.
Qed.

Lemma os_mkdir_ok m p m' :
  os_mkdir m p = Ok m' → p ≠ [] ∧ m !! p = None ∧ m' = <[p := Dir]> m.
Proof.
  unfold os_mkdir. destruct p as [|n d]; [done |]. rewrite stat_cons.
  destruct (m !! (n :: d)); [done |].
  destruct (stat m (parent (n :: d))) as [[|?]|]; try done.
  by intros [= <-].
Qed.

(** How a successful step changes the map: a path keeps its node, or it is
    one of [news] and new. *)
Definition extends (news : path → Prop) (m m' : gmap path node) : Prop :=
  ∀ q, m' !! q = m !! q ∨ (m !! q = None ∧ m' !! q = Some Dir ∧ news q).

Lemma extends_refl news m : extends news m m.
Proof. intros q. by left. Qed.

Lemma extends_trans news m1 m2 m3 :
  extends news m1 m2 → extends news m2 m3 → extends news m1 m3.
Proof.
  intros H12 H23 q. destruct (H12 q) as [E1 | (N1 & D1 & S1)];
    destruct (H23 q) as [E2 | (N2 & D2 & S2)].
  - left. congruence.
  - right. rewrite <- E1. done.
  - right. rewrite E2. done.
  - congruence.
Qed.

Lemma extends_weaken (P Q : path → Prop) m m' :
  (∀ q, P q → Q q) → extends P m m' → extends Q m m'.
Proof. intros HPQ H q. destruct (H q) as [? | (? & ? & ?)]; [by left | right; auto]. Qed.

(** [mkdir(parents=True, exist_ok=True)] leaves a directory at [p], and on
    the way adds nothing but directories at [p] and above it. *)
Lemma mkdir_parents_ok m p m' :
  mkdir_parents m p = Ok m' →
  is_dir_in m' p = true ∧ extends (λ q, q `suffix_of` p ∧ q ≠ []) m m'.
Proof.
  revert m'. induction p as [|n d IH]; intros m'.
  - simpl. intros [= <-]. split; [done | apply extends_refl].
  - cbn [mkdir_parents].
    destruct (os_mkdir m (n :: d)) as [m0 | e] eqn:Hmk.
    + intros [= <-]. apply os_mkdir_ok in Hmk as (_ & Hnone & ->). split.
      * unfold is_dir_in. by rewrite stat_insert_eq.
      * intros q. destruct (decide (q = n :: d)) as [-> | Hne].
        -- right. rewrite lookup_insert_eq. done.
        -- left. by rewrite lookup_insert_ne.
    + assert (Hex : is_dir_in m (n :: d) = true → m' = m →
                    is_dir_in m' (n :: d) = true ∧
                    extends (λ q, q `suffix_of` (n :: d) ∧ q ≠ []) m m').
      { intros Hd ->. split; [done | apply extends_refl]. }
      destruct e;
        try (destruct (is_dir_in m (n :: d)) eqn:Hd; [intros [= <-]; by apply Hex | done]).
      destruct (mkdir_parents m d) as [m1 | e1] eqn:Hrec; [| done].
      destruct (IH m1 eq_refl) as [Hd1 Hext1].
      assert (Hext1' : extends (λ q, q `suffix_of` (n :: d) ∧ q ≠ []) m m1).
      { eapply extends_weaken; [| exact Hext1]. intros q [Hs Hq]. split; [| done].
        by apply suffix_cons_r. }
      destruct (os_mkdir m1 (n :: d)) as [m2 | e2] eqn:Hmk2.
      * intros [= <-]. apply os_mkdir_ok in Hmk2 as (_ & Hnone & ->). split.
        -- unfold is_dir_in. by rewrite stat_insert_eq.
        -- eapply extends_trans; [exact Hext1' |].
           intros q. destruct (decide (q = n :: d)) as [-> | Hne].
           ++ right. rewrite lookup_insert_eq. done.
           ++ left. by rewrite lookup_insert_ne.
      * destruct e2; try done;
          (destruct (is_dir_in m1 (n :: d)) eqn:Hd; [intros [= <-]; by split | done]).
Qed.

(** Nothing that was there is lost or changed by [extends]. *)
Lemma extends_lookup_Some news m m' q x :
  extends news m m' → m !! q = Some x → m' !! q = Some x.
Proof. intros H Hq. destruct (H q) as [-> | (N & _)]; congruence. Qed.

Lemma extends_stat_Some news m m' q x :
  extends news m m' → stat m q = Some x → stat m' q = Some x.
Proof. destruct q; [done |]. apply extends_lookup_Some. Qed.

Lemma extends_outside news m m' q : extends news m m' → ¬ news q → m' !! q = m !! q.
Proof. intros H Hq. by destruct (H q) as [-> | (_ & _ & ?)]. Qed.

(** ** Listing a directory *)

Lemma elem_of_listdir m d n : n ∈ listdir m d ↔ is_Some (m !! (n :: d)).
Proof.
  unfold listdir. rewrite list_elem_of_omap. split.
  - intros ([k x] & Hin & Hf). apply elem_of_map_to_list in Hin. simpl in Hf.
    destruct k as [|n' d']; [done |]. case_decide; [| done].
    injection Hf as <-. subst d'. by exists x.
  - intros [x Hx]. exists (n :: d, x). split; [by apply elem_of_map_to_list |].
    simpl. by rewrite decide_True.
Qed.

Lemma NoDup_omap_inj {A B} (f : A → option B) (l : list A) :
  (∀ x y z, x ∈ l → y ∈ l → f x = Some z → f y = Some z → x = y) →
  NoDup l → NoDup (omap f l).
Proof.
  intros Hinj Hnd. induction Hnd as [|a l Hnotin Hnd IH]; [constructor |].
  simpl. destruct (f a) as [b|] eqn:Hfa.
  - constructor.
    + rewrite list_elem_of_omap. intros (y & Hy & Hfy).
      assert (a = y) as -> by (eapply Hinj; [left | by right | done..]). done.
    + apply IH. intros x y z Hx Hy. apply Hinj; by right.
  - apply IH. intros x y z Hx Hy. apply Hinj; by right.
Qed.

Lemma NoDup_listdir m d : NoDup (listdir m d).
Proof.
  unfold listdir. apply NoDup_omap_inj; [| apply NoDup_map_to_list].
  intros [k1 x1] [k2 x2] z H1 H2 Hf1 Hf2. simpl in *.
  apply elem_of_map_to_list in H1, H2.
  destruct k1 as [|n1 d1]; [done |]. destruct k2 as [|n2 d2]; [done |].
  repeat case_decide; try done. simplify_eq. done.
Qed.

(** ** The tree below a folder *)

Lemma relative_to_Some root p rel :
  relative_to root p = Some rel ↔ p = (rel ++ root)%list.
Proof.
  unfold relative_to. split.
  - case_decide as Hd; [| done]. intros [= <-].
    pose proof (take_drop (length p - length root) p) as Htd.
    rewrite Hd in Htd. done.
  - intros ->. rewrite length_app.
    replace (length rel + length root - length root)%nat with (length rel) by lia.
    rewrite drop_app_length, decide_True by done. by rewrite take_app_length.
Qed.

Lemma subtree_lookup m root rel :
  subtree m root !! rel =
  match rel with
  | [] => None
  | _ => m !! (rel ++ root)%list
  end.
Proof.
  unfold subtree.
  set (f := λ kv : path * node,
              match relative_to root (fst kv) with
              | Some (r :: rel) => Some (r :: rel, snd kv)
              | _ => None
              end).
  assert (Hf : ∀ k x r y, f (k, x) = Some (r, y) ↔ (r ≠ [] ∧ k = (r ++ root)%list ∧ y = x)).
  { intros k x r y. unfold f. simpl. split.
    - destruct (relative_to root k) as [[|a rel']|] eqn:Hrel; try done.
      intros [= <- <-]. apply relative_to_Some in Hrel. done.
    - intros (Hr & -> & ->).
      assert (relative_to root (r ++ root)%list = Some r) as -> by by apply relative_to_Some.
      destruct r; done. }
  assert (Hnd : NoDup (omap f (map_to_list m)).*1).
  { apply NoDup_fmap_fst.
    - intros r y1 y2 H1 H2. apply list_elem_of_omap in H1 as ([k1 x1] & Hin1 & Hf1).
      apply list_elem_of_omap in H2 as ([k2 x2] & Hin2 & Hf2).
      apply Hf in Hf1 as (_ & -> & ->). apply Hf in Hf2 as (_ & -> & ->).
      apply elem_of_map_to_list in Hin1, Hin2. congruence.
    - apply NoDup_omap_inj; [| apply NoDup_map_to_list].
      intros [k1 x1] [k2 x2] [r y] _ _ Hf1 Hf2.
      apply Hf in Hf1 as (_ & -> & ->). apply Hf in Hf2 as (_ & -> & ->). done. }
  apply option_eq. intros y.
  rewrite <- elem_of_list_to_map by done. rewrite list_elem_of_omap. split.
  - intros ([k x] & Hin & Hfx). apply Hf in Hfx as (Hr & -> & ->).
    apply elem_of_map_to_list in Hin. destruct rel; done.
  - intros Hy. destruct rel as [|a rel']; [done |].
    exists ((a :: rel') ++ root, y)%list. split; [by apply elem_of_map_to_list |].
    apply Hf. done.
Qed.

(** The tree below [root] depends on nothing but the paths strictly below it. *)
Lemma subtree_ext m m' root :
  (∀ rel, rel ≠ [] → m !! (rel ++ root)%list = m' !! (rel ++ root)%list) →
  subtree m root = subtree m' root.
Proof.
  intros H. apply map_eq. intros rel. rewrite !subtree_lookup.
  destruct rel; [done |]. by apply H.
Qed.

End fs_facts.

(* ===================================================================== *)
(** * Reasoning about runs *)
(* ===================================================================== *)

Section runs.

Implicit Types (w : world) (m : gmap path node) (p q d src tgt : path) (n : string).

Lemma bind_Ok {A B} (c : M A) (k : A → M B) w b w' :
  (c ≫= k) w = (Ok b, w') → ∃ a w1, c w = (Ok a, w1) ∧ k a w1 = (Ok b, w').
Proof.
  unfold mbind, M_bind. destruct (c w) as [[a | e] w1]; [| done].
  intros H. by exists a, w1.
Qed.

Lemma bind_run {A B} (c : M A) (k : A → M B) w a w1 :
  c w = (Ok a, w1) → (c ≫= k) w = k a w1.
Proof. unfold mbind, M_bind. by intros ->. Qed.

Lemma bind_raise {A B} (c : M A) (k : A → M B) w e w1 :
  c w = (Raise e, w1) → (c ≫= k) w = (Raise e, w1).
Proof. unfold mbind, M_bind. by intros ->. Qed.

Lemma lift_Ok {A} (o : outcome A) w a w' : lift o w = (Ok a, w') → o = Ok a ∧ w' = w.
Proof. unfold lift. by intros [= -> ->]. Qed.

(** A run that returns [a] leaves the world [snd (c w)]. *)
Lemma run_returns {A} (c : M A) w a : fst (c w) = Ok a → c w = (Ok a, snd (c w)).
Proof. destruct (c w) as [o w1]. simpl. by intros ->. Qed.

Lemma pass_Ok w u w' : pass w = (Ok u, w') → w' = w.
Proof. by intros [= _ ->]. Qed.

(** ** The library calls, when they return *)

Lemma Path_mkdir_Ok p w u w' :
  Path_mkdir p w = (Ok u, w') →
  ∃ m1, mkdir_parents (fs w) p = Ok m1 ∧ w' = emit (EvMkdir p) (set_fs m1 w).
Proof.
  unfold Path_mkdir. destruct (mkdir_parents (fs w) p) as [m1 | e]; [| done].
  intros [= _ <-]. by exists m1.
Qed.

Lemma Image_save_Ok im p w u w' :
  Image_save im p w = (Ok u, w') →
  open_w (fs w) p = Ok tt ∧
  w' = emit (EvSave im p) (set_fs (<[p := File (Png im)]> (fs w)) w).
Proof.
  unfold Image_save. destruct (negb _); [done |].
  destruct (open_w (fs w) p) as [[] | e]; [| done]. by intros [= _ <-].
Qed.

Lemma Path_write_text_Ok p s w u w' :
  Path_write_text p s w = (Ok u, w') →
  open_w (fs w) p = Ok tt ∧
  w' = emit (EvWriteText p s) (set_fs (<[p := File (Text s)]> (fs w)) w).
Proof.
  unfold Path_write_text.
  destruct (open_w (fs w) p) as [[] | e]; [| done]. by intros [= _ <-].
Qed.

Lemma shutil_copy2_Ok src dst w r w' :
  shutil_copy2 src dst w = (Ok r, w') →
  r = (if is_dir_in (fs w) dst then dst // name src else dst) ∧
  src ≠ r ∧
  open_w (fs w) r = Ok tt ∧
  ∃ x, stat (fs w) src = Some (File x) ∧
       w' = emit (EvCopy src r) (set_fs (<[r := File x]> (fs w)) w).
Proof.
  unfold shutil_copy2.
  set (dst' := if is_dir_in (fs w) dst then dst // name src else dst).
  destruct (bool_decide (src = dst') && exists_in (fs w) src) eqn:Hsame; [done |].
  unfold open_r, exists_in in *.
  destruct (stat (fs w) src) as [[|x]|] eqn:Hsrc; try done.
  destruct (open_w (fs w) dst') as [[] | e] eqn:Hw; [| done].
  intros [= <- <-]. rewrite andb_false_r in Hsame || idtac.
  split; [done |]. split.
  - apply andb_false_iff in Hsame as [Hs | Hs]; [| done].
    by apply bool_decide_eq_false in Hs.
  - split; [done |]. by exists x.
Qed.

(** ** A step of the loop over the textures *)

(** The event a texture leaves in the log. *)
Definition texture_event (src tgt : path) (n : string) (e : event) : Prop :=
  if is_diamond n
  then e = EvCopy (src // n) (tgt // n) ∨ e = EvCopy (src // n) (tgt // n // n)
  else e = EvSave transparent_img (tgt // n).

(** The same event, by the state before the step: the copy of a diamond
    texture goes where [shutil.copy2] takes it, which is [tgt / n] unless
    a directory was there. *)
Definition texture_processed (src tgt : path) (m : gmap path node)
    (n : string) (e : event) : Prop :=
  if is_diamond n
  then ∃ dst, e = EvCopy (src // n) dst ∧ (m !! (tgt // n) ≠ Some Dir → dst = tgt // n)
  else e = EvSave transparent_img (tgt // n).

(** That event as a function of the state. *)
Definition texture_logged (src tgt : path) (m : gmap path node) (n : string) : event :=
  if is_diamond n
  then EvCopy (src // n) (if is_dir_in m (tgt // n) then tgt // n // n else tgt // n)
  else EvSave transparent_img (tgt // n).

(** What one step does: a single file written, at [tgt / n], or, for a
    copy onto an existing directory, inside it. *)
Lemma texture_step_Ok src tgt n w u w' :
  texture_step src tgt n w = (Ok u, w') →
  ∃ dst x e,
    w' = emit e (set_fs (<[dst := File x]> (fs w)) w) ∧
    open_w (fs w) dst = Ok tt ∧
    texture_event src tgt n e ∧
    (if is_diamond n
     then dst = (if is_dir_in (fs w) (tgt // n) then tgt // n // n else tgt // n) ∧
          src // n ≠ dst ∧ fs w !! (src // n) = Some (File x)
     else dst = tgt // n ∧ x = Png transparent_img).
Proof.
  unfold texture_step, texture_event. cbv zeta.
  change (name (src // n)) with n.
  destruct (is_diamond n) eqn:Hdia.
  - intros H. apply bind_Ok in H as (r & w1 & Hcp & Hp). apply pass_Ok in Hp as ->.
    apply shutil_copy2_Ok in Hcp as (-> & Hne & Hw & x & Hx & ->).
    simpl name in *.
    exists (if is_dir_in (fs w) (tgt // n) then tgt // n // n else tgt // n), x,
      (EvCopy (src // n) (if is_dir_in (fs w) (tgt // n) then tgt // n // n else tgt // n)).
    repeat split; try done.
    destruct (is_dir_in (fs w) (tgt // n)); auto.
  - intros H. apply Image_save_Ok in H as [Hw ->].
    exists (tgt // n), (Png transparent_img), (EvSave transparent_img (tgt // n)). done.
Qed.

(** ** The loop over the textures *)

(** The paths the loop over the names [l] can write. *)
Definition texture_targets (tgt : path) (l : list string) (q : path) : Prop :=
  ∃ n, n ∈ l ∧ (q = tgt // n ∨ (q = tgt // n // n ∧ is_diamond n = true)).

Lemma cons_neq_self {A} (x : A) (l : list A) : l ≠ x :: l.
Proof. intros H. apply (f_equal length) in H. simpl in H. lia. Qed.

Lemma suffix_of_cons {A} (l1 l2 : list A) (x : A) :
  l1 `suffix_of` x :: l2 → l1 = x :: l2 ∨ l1 `suffix_of` l2.
Proof.
  intros [k H]. destruct k as [|a k]; simpl in H.
  - by left.
  - injection H as _ ->. right. by exists k.
Qed.

Lemma texture_targets_notin tgt l n : n ∉ l → ¬ texture_targets tgt l (tgt // n).
Proof.
  intros Hn (n' & Hin & [H | [H _]]).
  - injection H as ->. done.
  - injection H as _ H. by apply cons_neq_self in H.
Qed.

Lemma texture_targets_cons tgt n0 l q :
  texture_targets tgt l q → texture_targets tgt (n0 :: l) q.
Proof. intros (n & Hin & H). exists n. split; [by right | done]. Qed.

Lemma is_dir_in_lookup m n d : is_dir_in m (n :: d) = true → m !! (n :: d) = Some Dir.
Proof.
  unfold is_dir_in. rewrite stat_cons. by destruct (m !! (n :: d)) as [[|?]|].
Qed.

Lemma is_dir_in_insert_ne m p q x :
  p ≠ q → is_dir_in (<[p := x]> m) q = is_dir_in m q.
Proof. intros H. unfold is_dir_in. by rewrite stat_insert_ne. Qed.

(** Where a step writes. *)
Lemma texture_step_dst src tgt n m dst x :
  (if is_diamond n
   then dst = (if is_dir_in m (tgt // n) then tgt // n // n else tgt // n) ∧
        src // n ≠ dst ∧ m !! (src // n) = Some (File x)
   else dst = tgt // n ∧ x = Png transparent_img) →
  dst = tgt // n ∨ (dst = tgt // n // n ∧ is_diamond n = true).
Proof.
  destruct (is_diamond n).
  - intros (-> & _). destruct (is_dir_in m (tgt // n)); auto.
  - intros (-> & _). auto.
Qed.

(** The loop writes files, one for each name and nowhere else, never onto
    a directory; it draws no UUID and logs one event for each name. *)
Lemma texture_loop_changes src tgt l w w' :
  for_each l (texture_step src tgt) w = (Ok tt, w') →
  (∀ q, fs w' !! q = fs w !! q ∨
        (texture_targets tgt l q ∧ fs w !! q ≠ Some Dir ∧ ∃ x, fs w' !! q = Some (File x))) ∧
  uuid_source w' = uuid_source w ∧ uuid_drawn w' = uuid_drawn w ∧
  ∃ evs, log w' = (log w ++ evs)%list ∧ Forall2 (texture_event src tgt) l evs.
Proof.
  revert w. induction l as [|n0 l IH]; intros w; cbn [for_each].
  - intros Hp. apply pass_Ok in Hp as ->. repeat split; [by left |].
    exists []. split; [by rewrite app_nil_r | constructor].
  - intros H. apply bind_Ok in H as ([] & w1 & Hstep & Hrest).
    apply texture_step_Ok in Hstep as (dst & x & e & -> & Hw & Hev & Hdst).
    apply (texture_step_dst src tgt n0 (fs w)) in Hdst.
    apply open_w_ok in Hw as [Hne Hnd].
    destruct (IH _ Hrest) as (Hfs & Hsrc & Hdrawn & evs & Hlog & Hevs).
    simpl in *. split; [| split; [done | split; [done |]]].
    + intros q. destruct (Hfs q) as [Hq | (Ht & Hq & xq & Hxq)].
      * destruct (decide (q = dst)) as [-> | Hqd].
        -- right. rewrite lookup_insert_eq in Hq. split; [| split; [done | by exists x]].
           exists n0. split; [by left | done].
        -- left. by rewrite lookup_insert_ne in Hq.
      * right. split; [by apply texture_targets_cons |]. split; [| by exists xq].
        destruct (decide (q = dst)) as [-> | Hqd]; [done |].
        by rewrite lookup_insert_ne in Hq.
    + exists (e :: evs). split; [by rewrite Hlog, <- app_assoc | by constructor].
Qed.

(** A texture without "diamond" in its stem ends up blank. *)
Lemma texture_loop_blank src tgt l w w' n :
  NoDup l → n ∈ l → is_diamond n = false →
  for_each l (texture_step src tgt) w = (Ok tt, w') →
  fs w' !! (tgt // n) = Some (File (Png transparent_img)).
Proof.
  intros Hnd Hin Hdia. revert w. induction Hnd as [|n0 l Hnotin Hnd IH]; intros w.
  { by apply elem_of_nil in Hin. }
  cbn [for_each]. intros H. apply bind_Ok in H as ([] & w1 & Hstep & Hrest).
  apply elem_of_cons in Hin as [-> | Hin]; [| by eapply IH].
  apply texture_step_Ok in Hstep as (dst & x & e & -> & _ & _ & Hdst).
  rewrite Hdia in Hdst. destruct Hdst as [-> ->].
  apply texture_loop_changes in Hrest as (Hfs & _).
  destruct (Hfs (tgt // n0)) as [-> | (Ht & _)].
  - simpl. by rewrite lookup_insert_eq.
  - by apply texture_targets_notin in Ht.
Qed.

(** A texture with "diamond" in its stem is copied as it is, unless a
    directory is in its place. *)
Lemma texture_loop_copy src tgt l w w' n :
  NoDup l → n ∈ l → is_diamond n = true →
  is_dir_in (fs w) (tgt // n) = false →
  for_each l (texture_step src tgt) w = (Ok tt, w') →
  ∃ x, fs w !! (src // n) = Some (File x) ∧ fs w' !! (tgt // n) = Some (File x).
Proof.
  intros Hnd Hin Hdia. revert w. induction Hnd as [|n0 l Hnotin Hnd IH]; intros w Hdir.
  { by apply elem_of_nil in Hin. }
  cbn [for_each]. intros H. apply bind_Ok in H as ([] & w1 & Hstep & Hrest).
  apply texture_step_Ok in Hstep as (dst & x & e & -> & _ & _ & Hdst).
  apply elem_of_cons in Hin as [-> | Hin].
  - rewrite Hdia, Hdir in Hdst. destruct Hdst as (-> & _ & Hx).
    exists x. split; [done |].
    apply texture_loop_changes in Hrest as (Hfs & _).
    destruct (Hfs (tgt // n0)) as [-> | (Ht & _)].
    + simpl. by rewrite lookup_insert_eq.
    + by apply texture_targets_notin in Ht.
  - assert (Hn : n ≠ n0) by (intros ->; done).
    apply (texture_step_dst src tgt n0 (fs w)) in Hdst.
    assert (Hd1 : tgt // n ≠ dst).
    { destruct Hdst as [-> | [-> _]]; intros [=]; [done |].
      by eapply cons_neq_self. }
    assert (Hd2 : src // n ≠ dst).
    { destruct Hdst as [-> | [-> _]]; intros [=]; done. }
    destruct (IH Hin (emit e (set_fs (<[dst := File x]> (fs w)) w))) as (y & Hy & Hy');
      [| done |].
    + simpl. rewrite is_dir_in_insert_ne; done.
    + exists y. split; [| done]. simpl in Hy. by rewrite lookup_insert_ne in Hy.
Qed.

(** Nothing at or below the source folder is written, when the target is
    not the source folder or a folder inside it. *)
Lemma texture_loop_source src tgt l w w' :
  ¬ src `suffix_of` tgt → is_dir_in (fs w) src = true →
  for_each l (texture_step src tgt) w = (Ok tt, w') →
  ∀ q, src `suffix_of` q → fs w' !! q = fs w !! q.
Proof.
  intros Hst. revert w. induction l as [|n0 l IH]; intros w Hdir; cbn [for_each].
  { intros Hp. by apply pass_Ok in Hp as ->. }
  intros H. apply bind_Ok in H as ([] & w1 & Hstep & Hrest).
  apply texture_step_Ok in Hstep as (dst & x & e & -> & Hw & _ & Hdst).
  apply open_w_ok in Hw as [Hne Hnd].
  assert (Hsd : src ≠ dst).
  { intros ->. destruct dst as [|a dst]; [done |]. by apply is_dir_in_lookup in Hdir. }
  assert (Hout : ¬ src `suffix_of` dst).
  { intros Hs. destruct (is_diamond n0).
    - destruct Hdst as (Hd & Hself & _).
      destruct (is_dir_in (fs w) (tgt // n0)); subst dst.
      + apply suffix_of_cons in Hs as [-> | Hs]; [done |].
        apply suffix_of_cons in Hs as [-> | Hs]; done.
      + apply suffix_of_cons in Hs as [-> | Hs]; done.
    - destruct Hdst as [-> _]. apply suffix_of_cons in Hs as [-> | Hs]; done. }
  intros q Hq. etrans; [eapply (IH _ _ Hrest q Hq) |].
  simpl. rewrite lookup_insert_ne; [done |]. by intros <-.
  Unshelve. simpl. by rewrite is_dir_in_insert_ne.
Qed.

(** ** The functions of the script, when they return *)

Lemma elem_of_glob_png m d n :
  n ∈ glob_names m d "*.png" ↔ Str.endswith ".png" n = true ∧ is_Some (m !! (d // n)).
Proof. unfold glob_names. rewrite list_elem_of_filter, elem_of_listdir. done. Qed.

Lemma NoDup_glob_names m d pattern : NoDup (glob_names m d pattern).
Proof. apply NoDup_filter, NoDup_listdir. Qed.

Lemma make_transparent_blocks_Ok src tgt w u w' :
  make_transparent_blocks src tgt w = (Ok u, w') →
  is_dir_in (fs w) src = true ∧
  ∃ m1, mkdir_parents (fs w) tgt = Ok m1 ∧
        for_each (glob_names m1 src "*.png") (texture_step src tgt)
          (emit (EvMkdir tgt) (set_fs m1 w)) = (Ok tt, w').
Proof.
  unfold make_transparent_blocks. intros H.
  apply bind_Ok in H as (isd & w0 & Hd & H). injection Hd as <- <-.
  destruct (is_dir_in (fs w) src) eqn:Hdir; [| done]. split; [done |].
  simpl negb in H. cbv iota in H.
  apply bind_Ok in H as ([] & w1 & Hmk & H).
  apply Path_mkdir_Ok in Hmk as (m1 & Hm1 & ->). exists m1. split; [done |].
  apply bind_Ok in H as (pngs & w2 & Hg & H). injection Hg as <- <-.
  by destruct u.
Qed.

Lemma write_manifest_Ok root nm descr w u w' :
  write_manifest root nm descr w = (Ok u, w') →
  ∃ m1, mkdir_parents (fs w) root = Ok m1 ∧
        open_w m1 (root // "manifest.json") = Ok tt ∧
        let text := Json.dumps (manifest nm descr (uuid_source w (uuid_drawn w))
                                  (uuid_source w (S (uuid_drawn w)))) in
        fs w' = <[root // "manifest.json" := File (Text text)]> m1 ∧
        log w' = (log w ++ [EvMkdir root; EvWriteText (root // "manifest.json") text])%list ∧
        uuid_source w' = uuid_source w ∧
        uuid_drawn w' = S (S (uuid_drawn w)).
Proof.
  unfold write_manifest. intros H.
  apply bind_Ok in H as ([] & w1 & Hmk & H).
  apply Path_mkdir_Ok in Hmk as (m1 & Hm1 & ->). exists m1. split; [done |].
  apply bind_Ok in H as (u1 & w2 & Hu1 & H). injection Hu1 as <- <-.
  apply bind_Ok in H as (u2 & w3 & Hu2 & H). injection Hu2 as <- <-.
  apply Path_write_text_Ok in H as [Hw ->]. simpl in *.
  repeat split; try done. by rewrite <- app_assoc.
Qed.

Lemma write_default_icon_Ok root w u w' :
  write_default_icon root w = (Ok u, w') →
  (exists_in (fs w) (root // "pack_icon.png") = true ∧ w' = w) ∨
  (exists_in (fs w) (root // "pack_icon.png") = false ∧
   open_w (fs w) (root // "pack_icon.png") = Ok tt ∧
   w' = emit (EvSave default_icon (root // "pack_icon.png"))
          (set_fs (<[root // "pack_icon.png" := File (Png default_icon)]> (fs w)) w)).
Proof.
  unfold write_default_icon. intros H.
  apply bind_Ok in H as (present & w1 & Hex & H). injection Hex as <- <-.
  destruct (exists_in (fs w) (root // "pack_icon.png")).
  - left. apply pass_Ok in H. done.
  - right. apply Image_save_Ok in H as [? ->]. done.
Qed.

Lemma shutil_make_archive_Ok base root w r w' :
  shutil_make_archive base root w = (Ok r, w') →
  r = add_ext base ".zip" ∧
  is_dir_in (fs w) root = true ∧
  ∃ m1, extends (λ q, q `suffix_of` parent base ∧ q ≠ []) (fs w) m1 ∧
        open_w m1 r = Ok tt ∧
        w' = emit (EvMakeArchive r root)
               (set_fs (<[r := File (Zip (subtree (<[r := File (Blob [])]> m1) root))]> m1) w).
Proof.
  unfold shutil_make_archive, is_dir_in.
  destruct (stat (fs w) root) as [[|?]|]; try done.
  set (made := if exists_in (fs w) (parent base) then _ else _).
  destruct made as [m1 | e] eqn:Hmade; [| done].
  destruct (open_w m1 (add_ext base ".zip")) as [[] | e] eqn:Hw; [| done].
  intros [= <- <-]. split; [done |]. split; [done |]. exists m1.
  split; [| split; [done |]].
  - subst made. destruct (exists_in (fs w) (parent base)).
    + injection Hmade as <-. apply extends_refl.
    + by apply mkdir_parents_ok in Hmade as [_ ?].
  - by rewrite insert_insert_eq.
Qed.

Lemma Path_unlink_Ok p w u w' :
  Path_unlink p w = (Ok u, w') →
  (∃ x, stat (fs w) p = Some (File x)) ∧ w' = emit (EvUnlink p) (set_fs (delete p (fs w)) w).
Proof.
  unfold Path_unlink. destruct (stat (fs w) p) as [[|x]|]; try done.
  intros [= _ <-]. split; [by exists x | done].
Qed.

(** Renaming a file to a name that is free. *)
Lemma Path_rename_file_Ok src dst x w u w' :
  stat (fs w) src = Some (File x) → stat (fs w) dst = None →
  Path_rename src dst w = (Ok u, w') →
  w' = emit (EvRename src dst) (set_fs (<[dst := File x]> (delete src (fs w))) w).
Proof.
  unfold Path_rename. intros -> ->.
  destruct (stat (fs w) (parent dst)) as [[|?]|]; try done. by intros [= _ <-].
Qed.

(** The three names [build_mcpack] derives from [output_file]:
    [b.mcpack], [b.zip] and [b], side by side. *)
Lemma mcpack_names out mc :
  with_suffix out ".mcpack" = Ok mc →
  ∃ b, b ≠ "" ∧ mc = (b +:+ ".mcpack") :: parent out ∧
       with_suffix mc ".zip" = Ok ((b +:+ ".zip") :: parent out) ∧
       with_suffix ((b +:+ ".zip") :: parent out) "" = Ok (b :: parent out) ∧
       (b +:+ ".zip") :: parent out ≠ mc.
Proof.
  intros H. apply with_suffix_name in H as (b & Hb & ->). exists b.
  split; [done |]. split; [done |]. split; [| split].
  - by apply (with_suffix_ext b "mcpack").
  - rewrite (with_suffix_ext b "zip") by done. by rewrite append_nil_r.
  - intros [= H]. by apply (inj (String.append b)) in H.
Qed.

Lemma build_mcpack_Ok root out w u w' :
  build_mcpack root out w = (Ok u, w') →
  ∃ b m1,
    let mc := (b +:+ ".mcpack") :: parent out in
    let zip := (b +:+ ".zip") :: parent out in
    let z := Zip (subtree (<[zip := File (Blob [])]> m1) root) in
    b ≠ "" ∧ with_suffix out ".mcpack" = Ok mc ∧ zip ≠ mc ∧
    is_dir_in (fs w) root = true ∧
    extends (λ q, q `suffix_of` parent out ∧ q ≠ []) (fs w) m1 ∧
    open_w m1 zip = Ok tt ∧
    m1 !! mc ≠ Some Dir ∧
    fs w' = <[mc := File z]> (delete zip (delete mc m1)) ∧
    log w' = (log w ++ EvMakeArchive zip root ::
                (if exists_in m1 mc then [EvUnlink mc] else []) ++ [EvRename zip mc])%list ∧
    uuid_source w' = uuid_source w ∧ uuid_drawn w' = uuid_drawn w.
Proof.
  unfold build_mcpack. intros H.
  apply bind_Ok in H as (mc & w0 & Hmc & H). apply lift_Ok in Hmc as [Hmc ->].
  destruct (mcpack_names _ _ Hmc) as (b & Hb & -> & Hzip & Hbase & Hne).
  apply bind_Ok in H as (zip & w0 & Hz & H). apply lift_Ok in Hz as [Hz ->].
  rewrite Hzip in Hz. injection Hz as <-.
  apply bind_Ok in H as (base & w0 & Hbs & H). apply lift_Ok in Hbs as [Hbs ->].
  rewrite Hbase in Hbs. injection Hbs as <-.
  apply bind_Ok in H as (r & w1 & Harch & H).
  apply shutil_make_archive_Ok in Harch as (-> & Hroot & m1 & Hext & Hw & ->).
  cbn [add_ext parent tail] in *.
  set (mc := (b +:+ ".mcpack") :: parent out) in *.
  set (zip := (b +:+ ".zip") :: parent out) in *.
  set (z := Zip (subtree (<[zip := File (Blob [])]> m1) root)) in *.
  exists b, m1. cbv zeta. fold mc zip z.
  apply bind_Ok in H as (present & w2 & Hex & H). injection Hex as <- <-.
  apply bind_Ok in H as ([] & w3 & Hun & H).
  cbn [fs emit set_fs] in Hun.
  assert (Hstat : stat (<[zip := File z]> m1) mc = stat m1 mc) by by apply stat_insert_ne.
  assert (Hexi : exists_in (<[zip := File z]> m1) mc = exists_in m1 mc)
    by (unfold exists_in; by rewrite Hstat).
  rewrite Hexi in Hun.
  assert (Hmcl : stat m1 mc = m1 !! mc) by done.
  assert (Hzl : stat (delete mc (<[zip := File z]> m1)) zip = Some (File z)).
  { rewrite stat_delete_ne by done. apply stat_insert_eq. }
  assert (Hdd : delete zip (delete mc (<[zip := File z]> m1)) = delete zip (delete mc m1)).
  { apply map_eq. intros q. destruct (decide (q = zip)) as [-> | Hq].
    - by rewrite !lookup_delete_eq.
    - rewrite !(lookup_delete_ne _ zip) by done.
      destruct (decide (q = mc)) as [-> | Hq'].
      + by rewrite !lookup_delete_eq.
      + rewrite !(lookup_delete_ne _ mc) by done. by rewrite lookup_insert_ne. }
  destruct (exists_in m1 mc) eqn:Hpres.
  - apply Path_unlink_Ok in Hun as [[x Hx] ->]. cbn [fs emit set_fs] in *.
    rewrite Hstat in Hx.
    apply Path_rename_file_Ok with (x := z) in H; cbn [fs emit set_fs]; [| done |].
    + subst w'. cbn [fs log emit set_fs uuid_source uuid_drawn].
      rewrite Hdd. repeat split; try done.
      * rewrite Hmcl in Hx. by rewrite Hx.
      * by rewrite <- !app_assoc.
    + unfold stat. fold mc. apply lookup_delete_eq.
  - apply pass_Ok in Hun as ->. cbn [fs emit set_fs] in *.
    assert (Hnone : m1 !! mc = None).
    { unfold exists_in in Hpres. rewrite Hmcl in Hpres. by destruct (m1 !! mc). }
    assert (Hid : delete mc (<[zip := File z]> m1) = <[zip := File z]> m1).
    { apply map_eq. intros q. destruct (decide (q = mc)) as [-> | Hq].
      - rewrite lookup_delete_eq, lookup_insert_ne by done. done.
      - by rewrite lookup_delete_ne. }
    apply Path_rename_file_Ok with (x := z) in H; cbn [fs emit set_fs].
    + subst w'. cbn [fs log emit set_fs uuid_source uuid_drawn].
      rewrite <- Hdd, Hid. repeat split; try done.
      * by rewrite Hnone.
      * by rewrite <- !app_assoc.
    + apply stat_insert_eq.
    + rewrite Hstat, Hmcl. done.
Qed.

Lemma main_Ok a w u w' :
  main a w = (Ok u, w') →
  let root := output_pack a in
  is_dir_in (fs w) (source_textures a) = true ∧
  ∃ w1 w2 w3,
    make_transparent_blocks (source_textures a // "blocks")
      (root // "textures" // "blocks") w = (Ok tt, w1) ∧
    write_manifest root (arg_name a) (arg_description a) w1 = (Ok tt, w2) ∧
    write_default_icon root w2 = (Ok tt, w3) ∧
    if no_mcpack a then w' = w3
    else ∃ mc, with_suffix root ".mcpack" = Ok mc ∧ build_mcpack root mc w3 = (Ok tt, w').
Proof.
  unfold main. intros H. cbv zeta.
  apply bind_Ok in H as (isd & w0 & Hd & H). injection Hd as <- <-.
  destruct (is_dir_in (fs w) (source_textures a)); [| done]. split; [done |].
  simpl negb in H. cbv iota in H.
  apply bind_Ok in H as ([] & w1 & H1 & H).
  apply bind_Ok in H as ([] & w2 & H2 & H).
  apply bind_Ok in H as ([] & w3 & H3 & H).
  exists w1, w2, w3. repeat split; try done.
  destruct (no_mcpack a); simpl negb in H; cbv iota in H.
  - by apply pass_Ok in H.
  - apply bind_Ok in H as (mc & w4 & Hmc & H). apply lift_Ok in Hmc as [Hmc ->].
    exists mc. destruct u. done.
Qed.

End runs.

(* ===================================================================== *)
(** * Sample worlds *)
(* ===================================================================== *)

Module Sample.

(** A texture folder with a plain block, a diamond block and a text file. *)
Definition textures : gmap path node :=
  list_to_map [
    (["vanilla"], Dir);
    (["vanilla"] // "blocks", Dir);
    ([] // "vanilla" // "blocks" // "stone.png", File (Blob [Byte.x01]));
    ([] // "vanilla" // "blocks" // "Diamond_Ore.png", File (Blob [Byte.x02]));
    ([] // "vanilla" // "blocks" // "readme.txt", File (Blob [Byte.x03]))
  ].

Definition uuids (i : nat) : string := "uuid-" +:+ pretty i.

Definition start (m : gmap path node) : world :=
  {| fs := m; log := []; uuid_source := uuids; uuid_drawn := 0 |}.

Definition cli : args :=
  {| source_textures := ["vanilla"];
     output_pack := [] // "dist" // "XRay_Transparent_Pack";
     arg_name := "XRay Transparent Blocks Pack";
     arg_description := "Hides all block textures except diamond-related ones.";
     no_mcpack := false |}.

(** The same command line on a machine without the texture folder. *)
Definition empty_disk : world := start ∅.

(** A pack folder that already holds an icon of the user: one red pixel. *)
Definition user_icon : image := Image_new RGBA (1, 1)%nat (255, 0, 0, 255)%Z.

Definition with_icon : gmap path node :=
  <[ [] // "dist" // "XRay_Transparent_Pack" // "pack_icon.png" := File (Png user_icon) ]>
    (<[ [] // "dist" // "XRay_Transparent_Pack" := Dir ]> (<[ ["dist"] := Dir ]> textures)).

(** A target folder in which a directory has the name of a diamond texture. *)
Definition with_directory : gmap path node :=
  <[ [] // "out" // "Diamond_Ore.png" := Dir ]> (<[ ["out"] := Dir ]> textures).

(** A pack built before: the folder and an old archive beside it. *)
Definition with_old_pack : gmap path node :=
  <[ [] // "dist" // "XRay_Transparent_Pack.mcpack" := File (Blob [Byte.x04]) ]>
    (<[ [] // "dist" // "XRay_Transparent_Pack" // "manifest.json" := File (Text "old") ]> with_icon).

(** A pack that holds its own textures, none of them a diamond: the script
    is pointed at [pack/textures] and told to write the pack [pack]. *)
Definition own_pack : gmap path node :=
  list_to_map [
    (["pack"], Dir);
    (["pack"] // "textures", Dir);
    (["pack"] // "textures" // "blocks", Dir);
    (["pack"] // "textures" // "blocks" // "stone.png", File (Blob [Byte.x01]))
  ].

(** A texture folder in which names differ by letter case only. *)
Definition mixed_case : gmap path node :=
  list_to_map [
    (["vanilla"], Dir);
    (["vanilla"] // "blocks", Dir);
    ([] // "vanilla" // "blocks" // "DIAMOND_Block.png", File (Blob [Byte.x05]));
    ([] // "vanilla" // "blocks" // "diamond_block.png", File (Blob [Byte.x06]));
    ([] // "vanilla" // "blocks" // "Stone.png", File (Blob [Byte.x07]))
  ].


End Sample.

(* ===================================================================== *)
(** * Properties of the script *)
(* ===================================================================== *)

(** A step through a call whose result is known by computation. *)
Ltac bind_step :=
  lazymatch goal with
  | |- context [@mbind M M_bind ?A ?B ?k ?c ?w] =>
      rewrite (bind_run c k w _ _ eq_refl)
  end.

Lemma Image_new_uniform (w h : nat) (c : colour) :
  uniform_rgba w h c (Image_new RGBA (w, h) c).
Proof.
  unfold uniform_rgba, getpixel. simpl. repeat split.
  - apply length_replicate.
  - intros x y Hx Hy.
    assert (Hxw : (x <? w)%nat = true) by by apply Nat.ltb_lt.
    assert (Hyh : (y <? h)%nat = true) by by apply Nat.ltb_lt.
    rewrite Hxw, Hyh. simpl. apply lookup_replicate_2. nia.
Qed.


Lemma not_suffix_of_cons (x : string) (p : path) : ¬ (p // x) `suffix_of` p.
Proof. intros H. apply suffix_length in H. simpl in H. lia. Qed.

(** C2. The failure handling of the script is the two existence checks:
    [main] raises [FileNotFoundError] when [source_textures] is not a
    directory, [make_transparent_blocks] raises it when the blocks folder
    is not a directory (also when it is [main] that calls it), and in each
    case the world is the one before the call: nothing was created,
    changed or logged. *)
Theorem existence_checks_leave_no_trace :
  (∀ a w, is_dir_in (fs w) (source_textures a) = false →
          main a w = (Raise FileNotFoundError, w)) ∧
  (∀ src tgt w, is_dir_in (fs w) src = false →
                make_transparent_blocks src tgt w = (Raise FileNotFoundError, w)) ∧
  (∀ a w, is_dir_in (fs w) (source_textures a // "blocks") = false →
          main a w = (Raise FileNotFoundError, w)).
Proof.
  assert (Hmtb : ∀ src tgt w, is_dir_in (fs w) src = false →
                 make_transparent_blocks src tgt w = (Raise FileNotFoundError, w)).
  { intros src tgt w H. unfold make_transparent_blocks. bind_step. by rewrite H. }
  split; [| split; [exact Hmtb |]].
  - intros a w H. unfold main. bind_step. by rewrite H.
  - intros a w H. unfold main. bind_step.
    destruct (is_dir_in (fs w) (source_textures a)); [| done].
    change (negb true) with false. cbv iota.
    erewrite bind_raise; [done |]. by apply Hmtb.
Qed.

Lemma existence_checks_witness :
  is_dir_in (fs Sample.empty_disk) (source_textures Sample.cli) = false ∧
  main Sample.cli Sample.empty_disk = (Raise FileNotFoundError, Sample.empty_disk) ∧
  make_transparent_blocks (["vanilla"] // "blocks") ["out"] Sample.empty_disk
    = (Raise FileNotFoundError, Sample.empty_disk).
Proof.
  destruct existence_checks_leave_no_trace as (Hmain & Hmtb & _).
  split; [reflexivity |]. split.
  - apply Hmain. reflexivity.
  - apply Hmtb. reflexivity.
Defined.

(** C8. [write_default_icon] keeps an icon that is already there: if
    [pack_root / "pack_icon.png"] exists the call returns and the world is
    the one before it (no file written, nothing logged); and calling it a
    second time never changes what the first call left. *)
Theorem write_default_icon_idempotent (root : path) (w : world) :
  (exists_in (fs w) (root // "pack_icon.png") = true →
   write_default_icon root w = (Ok tt, w)) ∧
  write_default_icon root (snd (write_default_icon root w)) =
    (fst (write_default_icon root w), snd (write_default_icon root w)).
Proof.
  assert (Hkeep : ∀ w0, exists_in (fs w0) (root // "pack_icon.png") = true →
                        write_default_icon root w0 = (Ok tt, w0)).
  { intros w0 H. unfold write_default_icon. bind_step. by rewrite H. }
  split; [apply Hkeep |].
  destruct (exists_in (fs w) (root // "pack_icon.png")) eqn:Hex.
  { rewrite (Hkeep w Hex). simpl. by apply Hkeep. }
  assert (Hrun : write_default_icon root w =
                 Image_save default_icon (root // "pack_icon.png") w).
  { unfold write_default_icon. bind_step. by rewrite Hex. }
  rewrite Hrun.
  unfold Image_save.
  change (negb (String.eqb (Str.lower (splitext_ext (name (root // "pack_icon.png"))))
                  ".png")) with false. cbv iota.
  destruct (open_w (fs w) (root // "pack_icon.png")) as [[] | e] eqn:Hw.
  - simpl. apply Hkeep. simpl. unfold exists_in. by rewrite stat_insert_eq.
  - simpl. rewrite Hrun. unfold Image_save.
    change (negb (String.eqb (Str.lower (splitext_ext (name (root // "pack_icon.png"))))
                    ".png")) with false. cbv iota. by rewrite Hw.
Qed.

Lemma write_default_icon_witness :
  exists_in (fs (Sample.start Sample.with_icon))
    (output_pack Sample.cli // "pack_icon.png") = true ∧
  write_default_icon (output_pack Sample.cli) (Sample.start Sample.with_icon)
    = (Ok tt, Sample.start Sample.with_icon).
Proof.
  split; [vm_compute; reflexivity |].
  refine (proj1 (write_default_icon_idempotent (output_pack Sample.cli)
                   (Sample.start Sample.with_icon)) _).
  vm_compute; reflexivity.
Defined.

(** C9. A call of [build_mcpack] that returns leaves its archive at
    [output_file] with the suffix replaced by [.mcpack]: the name ends in
    [.mcpack] whatever the suffix was, the file there is the new zip of
    [pack_root] whether or not something was there before (a file that was
    there is unlinked first), and the temporary [.zip] beside it is gone:
    the last thing done is renaming it to the [.mcpack] path. *)
Theorem build_mcpack_normalizes (root out : path) (w w' : world) :
  build_mcpack root out w = (Ok tt, w') →
  ∃ mc zip members,
    with_suffix out ".mcpack" = Ok mc ∧
    Str.endswith ".mcpack" (name mc) = true ∧
    with_suffix mc ".zip" = Ok zip ∧
    fs w' !! mc = Some (File (Zip members)) ∧
    fs w' !! zip = None ∧
    log w' = (log w ++ EvMakeArchive zip root ::
                (if exists_in (fs w) mc then [EvUnlink mc] else []) ++
                [EvRename zip mc])%list.
Proof.
  intros H. apply build_mcpack_Ok in H
    as (b & m1 & Hb & Hmc & Hne & Hroot & Hext & Hw & Hnd & Hfs & Hlog & _).
  cbv zeta in *.
  eexists _, _, _. split; [exact Hmc |]. split; [apply endswith_append |].
  split; [by apply (with_suffix_ext b "mcpack") |]. split; [| split].
  - rewrite Hfs, lookup_insert_eq. done.
  - rewrite Hfs, lookup_insert_ne by done. apply lookup_delete_eq.
  - rewrite Hlog. do 3 f_equal.
    unfold exists_in. rewrite !stat_cons.
    rewrite (extends_outside _ _ _ _ Hext); [done |].
    intros [Hs _]. by apply not_suffix_of_cons in Hs.
Qed.

Lemma build_mcpack_witness :
  ∃ members,
    fs (snd (build_mcpack (output_pack Sample.cli)
               ([] // "dist" // "XRay_Transparent_Pack.tar.gz")
               (Sample.start Sample.with_old_pack)))
       !! ([] // "dist" // "XRay_Transparent_Pack.tar.mcpack") = Some (File (Zip members)) ∧
    fs (snd (build_mcpack (output_pack Sample.cli)
               ([] // "dist" // "XRay_Transparent_Pack.tar.gz")
               (Sample.start Sample.with_old_pack)))
       !! ([] // "dist" // "XRay_Transparent_Pack.tar.zip") = None.
Proof.
  assert (Hrun : build_mcpack (output_pack Sample.cli)
                   ([] // "dist" // "XRay_Transparent_Pack.tar.gz")
                   (Sample.start Sample.with_old_pack)
                 = (Ok tt, snd (build_mcpack (output_pack Sample.cli)
                                  ([] // "dist" // "XRay_Transparent_Pack.tar.gz")
                                  (Sample.start Sample.with_old_pack))))
    by (apply run_returns; vm_compute; reflexivity).
  destruct (build_mcpack_normalizes _ _ _ _ Hrun)
    as (mc & zip & members & Hmc & _ & Hzip & Hfs & Hgone & _).
  assert (E1 : with_suffix ([] // "dist" // "XRay_Transparent_Pack.tar.gz") ".mcpack"
               = Ok ([] // "dist" // "XRay_Transparent_Pack.tar.mcpack"))
    by (vm_compute; reflexivity).
  rewrite E1 in Hmc. injection Hmc as <-.
  assert (E2 : with_suffix ([] // "dist" // "XRay_Transparent_Pack.tar.mcpack") ".zip"
               = Ok ([] // "dist" // "XRay_Transparent_Pack.tar.zip"))
    by (vm_compute; reflexivity).
  rewrite E2 in Hzip. injection Hzip as <-.
  exists members. split; [exact Hfs | exact Hgone].
Defined.

(** ** The textures *)

(** The names the loop runs over hold every [*.png] entry of the source
    folder that was there before the call. *)
Lemma glob_after_mkdir (src tgt : path) (m m1 : gmap path node) (n : string) :
  mkdir_parents m tgt = Ok m1 →
  Str.endswith ".png" n = true → is_Some (m !! (src // n)) →
  n ∈ glob_names m1 src "*.png".
Proof.
  intros Hmk Hpng [x Hx]. apply elem_of_glob_png. split; [done |].
  apply mkdir_parents_ok in Hmk as [_ Hext]. exists x.
  by eapply extends_lookup_Some.
Qed.

(** A texture without "diamond" in its stem is blanked. *)
Lemma make_transparent_blocks_blank (src tgt : path) (w w' : world) (n : string) :
  make_transparent_blocks src tgt w = (Ok tt, w') →
  Str.endswith ".png" n = true → is_Some (fs w !! (src // n)) →
  is_diamond n = false →
  fs w' !! (tgt // n) = Some (File (Png transparent_img)).
Proof.
  intros H Hpng Hn Hdia.
  apply make_transparent_blocks_Ok in H as (_ & m1 & Hmk & Hloop).
  eapply texture_loop_blank; [apply NoDup_glob_names | | done | exact Hloop].
  by eapply glob_after_mkdir.
Qed.

(** C1, with the case of a directory in the place of a diamond texture
    left out.  After a call that returns, for every [*.png] entry [n] of
    [source_blocks]: if "diamond" occurs in the lowercased stem and
    [target_blocks / n] was not a directory, [target_blocks / n] is a file
    with the contents of the source file; if "diamond" does not occur,
    [target_blocks / n] is the 16 x 16 RGBA image whose pixels are all
    (0, 0, 0, 0). *)
Theorem make_transparent_blocks_textures (src tgt : path) (w w' : world) (n : string) :
  make_transparent_blocks src tgt w = (Ok tt, w') →
  Str.endswith ".png" n = true → is_Some (fs w !! (src // n)) →
  if is_diamond n
  then is_dir_in (fs w) (tgt // n) = false →
       ∃ x, fs w !! (src // n) = Some (File x) ∧ fs w' !! (tgt // n) = Some (File x)
  else fs w' !! (tgt // n) = Some (File (Png transparent_img)) ∧
       uniform_rgba 16 16 (0, 0, 0, 0)%Z transparent_img.
Proof.
  intros H Hpng Hn. destruct (is_diamond n) eqn:Hdia.
  - intros Hdir.
    apply make_transparent_blocks_Ok in H as (_ & m1 & Hmk & Hloop).
    pose proof (glob_after_mkdir src tgt _ _ n Hmk Hpng Hn) as Hin.
    apply mkdir_parents_ok in Hmk as [_ Hext].
    destruct Hn as [y Hy].
    destruct (texture_loop_copy src tgt _ (emit (EvMkdir tgt) (set_fs m1 w)) w' n
                (NoDup_glob_names _ _ _) Hin Hdia) as (x & Hx & Hx'); [| exact Hloop |].
    + cbn [fs emit set_fs]. unfold is_dir_in in *. rewrite stat_cons in *.
      rewrite (extends_outside _ _ _ _ Hext); [done |].
      intros [Hs _]. by apply not_suffix_of_cons in Hs.
    + cbn [fs emit set_fs] in Hx. exists x. split; [| done].
      rewrite (extends_lookup_Some _ _ _ _ _ Hext Hy) in Hx. by rewrite Hy, Hx.
  - split; [by eapply make_transparent_blocks_blank |]. apply Image_new_uniform.
Qed.

Lemma make_transparent_blocks_textures_witness :
  fs (snd (make_transparent_blocks (["vanilla"] // "blocks") ["out"]
             (Sample.start Sample.textures)))
     !! ([] // "out" // "Diamond_Ore.png") = Some (File (Blob [Byte.x02])) ∧
  fs (snd (make_transparent_blocks (["vanilla"] // "blocks") ["out"]
             (Sample.start Sample.textures)))
     !! ([] // "out" // "stone.png") = Some (File (Png transparent_img)).
Proof.
  assert (Hrun : make_transparent_blocks (["vanilla"] // "blocks") ["out"]
                   (Sample.start Sample.textures)
                 = (Ok tt, snd (make_transparent_blocks (["vanilla"] // "blocks") ["out"]
                                  (Sample.start Sample.textures))))
    by (apply run_returns; vm_compute; reflexivity).
  pose proof (make_transparent_blocks_textures _ _ _ _ "Diamond_Ore.png" Hrun) as Hd.
  pose proof (make_transparent_blocks_textures _ _ _ _ "stone.png" Hrun) as Hs.
  assert (E : fs (Sample.start Sample.textures)
                !! ([] // "vanilla" // "blocks" // "Diamond_Ore.png")
              = Some (File (Blob [Byte.x02]))) by (vm_compute; reflexivity).
  split.
  - destruct Hd as (x & Hx & Hx');
      [vm_compute; reflexivity | rewrite E; eauto | vm_compute; reflexivity |].
    rewrite E in Hx. injection Hx as <-. exact Hx'.
  - apply Hs; [vm_compute; reflexivity |].
    exists (File (Blob [Byte.x01])). vm_compute; reflexivity.
Defined.

(** C1 as it is written fails where a directory has the name of a diamond
    texture: the call returns, [Diamond_Ore.png] is a [*.png] entry of the
    source folder with "diamond" in its lowercased stem, and
    [out/Diamond_Ore.png] is afterwards still the directory, not a copy of
    the source file (the copy went inside it). *)
Lemma copy_into_directory_counterexample :
  fst (make_transparent_blocks (["vanilla"] // "blocks") ["out"]
         (Sample.start Sample.with_directory)) = Ok tt ∧
  "Diamond_Ore.png" ∈ glob_names Sample.with_directory (["vanilla"] // "blocks") "*.png" ∧
  is_diamond "Diamond_Ore.png" = true ∧
  Sample.with_directory !! ([] // "vanilla" // "blocks" // "Diamond_Ore.png")
    = Some (File (Blob [Byte.x02])) ∧
  fs (snd (make_transparent_blocks (["vanilla"] // "blocks") ["out"]
             (Sample.start Sample.with_directory))) !! ([] // "out" // "Diamond_Ore.png")
    = Some Dir ∧
  fs (snd (make_transparent_blocks (["vanilla"] // "blocks") ["out"]
             (Sample.start Sample.with_directory)))
     !! ([] // "out" // "Diamond_Ore.png" // "Diamond_Ore.png")
    = Some (File (Blob [Byte.x02])).
Proof.
  split; [vm_compute; reflexivity |]. split.
  - apply elem_of_glob_png. split; vm_compute; eauto.
  - repeat split; vm_compute; reflexivity.
Qed.

(** C7. What is written for a texture without "diamond" in its stem does
    not depend on the source: two calls that return, on any two worlds in
    which [n] is a [*.png] entry of the source folder, leave the same file
    at [target_blocks / n], the encoding of the one transparent image. *)
Theorem blank_texture_is_constant (src tgt : path) (w1 w1' w2 w2' : world) (n : string) :
  make_transparent_blocks src tgt w1 = (Ok tt, w1') →
  make_transparent_blocks src tgt w2 = (Ok tt, w2') →
  Str.endswith ".png" n = true → is_diamond n = false →
  is_Some (fs w1 !! (src // n)) → is_Some (fs w2 !! (src // n)) →
  fs w1' !! (tgt // n) = Some (File (Png transparent_img)) ∧
  fs w2' !! (tgt // n) = fs w1' !! (tgt // n).
Proof.
  intros H1 H2 Hpng Hdia Hn1 Hn2.
  rewrite (make_transparent_blocks_blank _ _ _ _ _ H1 Hpng Hn1 Hdia).
  rewrite (make_transparent_blocks_blank _ _ _ _ _ H2 Hpng Hn2 Hdia). done.
Qed.

Lemma is_dir_in_extends (news : path → Prop) (m m' : gmap path node) (p : path) :
  extends news m m' → is_dir_in m p = true → is_dir_in m' p = true.
Proof.
  intros Hext. unfold is_dir_in. destruct (stat m p) as [[|?]|] eqn:Hp; try done.
  by rewrite (extends_stat_Some _ _ _ _ _ Hext Hp).
Qed.

Lemma blank_texture_witness :
  fs (snd (make_transparent_blocks (["vanilla"] // "blocks") ["out"]
             (Sample.start Sample.with_directory)))
     !! ([] // "out" // "stone.png") =
  fs (snd (make_transparent_blocks (["vanilla"] // "blocks") ["out"]
             (Sample.start Sample.textures)))
     !! ([] // "out" // "stone.png").
Proof.
  refine (proj2 (blank_texture_is_constant (["vanilla"] // "blocks") ["out"]
                   (Sample.start Sample.textures) _
                   (Sample.start Sample.with_directory) _ "stone.png" _ _ _ _ _ _)).
  - apply run_returns; vm_compute; reflexivity.
  - apply run_returns; vm_compute; reflexivity.
  - vm_compute; reflexivity.
  - vm_compute; reflexivity.
  - exists (File (Blob [Byte.x01])). vm_compute; reflexivity.
  - exists (File (Blob [Byte.x01])). vm_compute; reflexivity.
Defined.

(** ** The stages of [main] *)

(** Comparing paths by their length. *)
Ltac by_length :=
  let E := fresh in
  intros E; apply (f_equal length) in E; rewrite ?length_app in E; simpl in E; lia.

Lemma suffix_of_shorter {A} (p q : list A) : (length q < length p)%nat → ¬ p `suffix_of` q.
Proof. intros Hl Hs. apply suffix_length in Hs. lia. Qed.

(** What [make_transparent_blocks] changes: directories made for the
    target, and files written for the names; no directory is replaced, no
    UUID is drawn. *)
Lemma make_transparent_blocks_changes (src tgt : path) (w w' : world) :
  make_transparent_blocks src tgt w = (Ok tt, w') →
  ∃ names evs,
    NoDup names ∧
    (∀ n, Str.endswith ".png" n = true → is_Some (fs w !! (src // n)) → n ∈ names) ∧
    (∀ q, fs w' !! q = fs w !! q ∨
          (q `suffix_of` tgt ∧ fs w !! q = None ∧ fs w' !! q = Some Dir) ∨
          (texture_targets tgt names q ∧ fs w !! q ≠ Some Dir ∧
           ∃ x, fs w' !! q = Some (File x))) ∧
    uuid_source w' = uuid_source w ∧ uuid_drawn w' = uuid_drawn w ∧
    log w' = (log w ++ EvMkdir tgt :: evs)%list ∧
    Forall2 (texture_event src tgt) names evs.
Proof.
  intros H. apply make_transparent_blocks_Ok in H as (Hdir & m1 & Hmk & Hloop).
  exists (glob_names m1 src "*.png").
  pose proof (texture_loop_changes _ _ _ _ _ Hloop) as (Hfs & Hus & Hud & evs & Hlog & Hevs).
  exists evs. split; [apply NoDup_glob_names |].
  split; [intros n Hpng Hn; by eapply glob_after_mkdir |].
  apply mkdir_parents_ok in Hmk as [_ Hext]. cbn [fs log emit set_fs] in *.
  split; [| split; [done | split; [done | split; [| done]]]].
  - intros q. destruct (Hfs q) as [Heq | (Ht & Hnd & x & Hx)].
    + destruct (Hext q) as [Heq' | (Hnone & Hd & Hs & _)].
      * left. congruence.
      * right. left. split; [done |]. split; [done | congruence].
    + destruct (Hext q) as [Heq' | (Hnone & Hd & Hs & _)].
      * right. right. split; [done |]. split; [congruence | by exists x].
      * congruence.
  - rewrite Hlog. by rewrite <- app_assoc.
Qed.

(** A file of the pack folder itself, such as the icon, is not touched by
    the textures stage. *)
Lemma make_transparent_blocks_pack_file (src root : path) (x : string) (w w' : world) :
  x ≠ "textures" →
  make_transparent_blocks src (root // "textures" // "blocks") w = (Ok tt, w') →
  fs w' !! (root // x) = fs w !! (root // x).
Proof.
  intros Hx H. apply make_transparent_blocks_changes in H
    as (names & evs & _ & _ & Hfs & _).
  destruct (Hfs (root // x)) as [Heq | [(Hs & _) | ((n & _ & Hcase) & _)]]; [done | |].
  - apply suffix_of_cons in Hs as [E | Hs]; [revert E; by_length |].
    apply suffix_of_cons in Hs as [E | Hs]; [by injection E |].
    by apply not_suffix_of_cons in Hs.
  - destruct Hcase as [E | [E _]]; revert E; by_length.
Qed.

(** Every texture of the source folder has an entry in the target folder
    after the textures stage. *)
Lemma make_transparent_blocks_entry (src tgt : path) (w w' : world) (n : string) :
  make_transparent_blocks src tgt w = (Ok tt, w') →
  Str.endswith ".png" n = true → is_Some (fs w !! (src // n)) →
  is_Some (fs w' !! (tgt // n)).
Proof.
  intros H Hpng Hn. destruct (is_diamond n) eqn:Hdia.
  - destruct (is_dir_in (fs w) (tgt // n)) eqn:Hdir.
    + apply is_dir_in_lookup in Hdir.
      apply make_transparent_blocks_changes in H as (names & evs & _ & _ & Hfs & _).
      destruct (Hfs (tgt // n)) as [-> | [(_ & Hnone & _) | (_ & Hnd & _)]];
        [by rewrite Hdir | congruence | done].
    + apply make_transparent_blocks_Ok in H as (_ & m1 & Hmk & Hloop).
      pose proof (glob_after_mkdir src tgt _ _ n Hmk Hpng Hn) as Hin.
      apply mkdir_parents_ok in Hmk as [_ Hext].
      destruct (texture_loop_copy src tgt _ (emit (EvMkdir tgt) (set_fs m1 w)) w' n
                  (NoDup_glob_names _ _ _) Hin Hdia) as (x & _ & Hx'); [| exact Hloop | eauto].
      cbn [fs emit set_fs]. unfold is_dir_in in *. rewrite stat_cons in *.
      rewrite (extends_outside _ _ _ _ Hext); [done |].
      intros [Hs _]. by apply not_suffix_of_cons in Hs.
  - rewrite (make_transparent_blocks_blank _ _ _ _ _ H Hpng Hn Hdia). eauto.
Qed.

(** The manifest and icon stages: the manifest is written, the icon is
    written unless something has its name, and nothing deeper in the tree
    than the files of the pack folder changes. *)
Lemma manifest_icon_stages (root : path) (nm descr : string) (w1 w2 w3 : world) :
  write_manifest root nm descr w1 = (Ok tt, w2) →
  write_default_icon root w2 = (Ok tt, w3) →
  let text := Json.dumps (manifest nm descr (uuid_source w1 (uuid_drawn w1))
                            (uuid_source w1 (S (uuid_drawn w1)))) in
  let icon := root // "pack_icon.png" in
  is_dir_in (fs w3) root = true ∧
  fs w3 !! (root // "manifest.json") = Some (File (Text text)) ∧
  fs w3 !! icon = (if exists_in (fs w1) icon then fs w1 !! icon
                   else Some (File (Png default_icon))) ∧
  (∀ q, (S (length root) < length q)%nat → fs w3 !! q = fs w1 !! q) ∧
  log w3 = (log w1 ++ [EvMkdir root; EvWriteText (root // "manifest.json") text] ++
            (if exists_in (fs w1) icon then [] else [EvSave default_icon icon]))%list.
Proof.
  intros Hm Hi. cbv zeta.
  apply write_manifest_Ok in Hm as (m1 & Hmk & Hw & Hfs2 & Hlog2 & _). cbv zeta in *.
  apply mkdir_parents_ok in Hmk as [Hdir Hext].
  assert (Hicon2 : fs w2 !! (root // "pack_icon.png") = fs w1 !! (root // "pack_icon.png")).
  { rewrite Hfs2, lookup_insert_ne by done. apply (extends_outside _ _ _ _ Hext).
    intros [Hs _]. by apply not_suffix_of_cons in Hs. }
  assert (Hex2 : exists_in (fs w2) (root // "pack_icon.png")
                 = exists_in (fs w1) (root // "pack_icon.png")).
  { unfold exists_in. by rewrite !stat_cons, Hicon2. }
  assert (Hdeep2 : ∀ q, (S (length root) < length q)%nat → fs w2 !! q = fs w1 !! q).
  { intros q Hq. rewrite Hfs2, lookup_insert_ne by by_length.
    apply (extends_outside _ _ _ _ Hext). intros [Hs _].
    apply suffix_length in Hs. lia. }
  assert (Hdir2 : is_dir_in (fs w2) root = true).
  { rewrite Hfs2, is_dir_in_insert_ne by apply not_eq_sym, cons_neq_self. done. }
  apply write_default_icon_Ok in Hi as [[Hex ->] | (Hex & _ & ->)];
    rewrite <- Hex2, Hex; cbn [fs log emit set_fs].
  - split; [done |]. split; [by rewrite Hfs2, lookup_insert_eq |]. split; [done |].
    split; [done |]. by rewrite app_nil_r.
  - split; [by rewrite is_dir_in_insert_ne by apply not_eq_sym, cons_neq_self |].
    split; [by rewrite lookup_insert_ne, Hfs2, lookup_insert_eq |].
    split; [by rewrite lookup_insert_eq |].
    split; [intros q Hq; rewrite lookup_insert_ne by by_length; by apply Hdeep2 |].
    rewrite Hlog2. by rewrite <- app_assoc.
Qed.

Lemma append_cancel_r (s1 s2 t : string) : s1 +:+ t = s2 +:+ t → s1 = s2.
Proof.
  assert (Hcons : ∀ a s, String a s +:+ t = String a (s +:+ t)) by done.
  assert (Hnil : "" +:+ t = t) by done.
  revert s2. induction s1 as [|a s1 IH]; intros [|a2 s2]; rewrite ?Hcons, ?Hnil.
  - done.
  - intros E. apply (f_equal String.length) in E. simpl in E.
    rewrite append_length in E. lia.
  - intros E. apply (f_equal String.length) in E. simpl in E.
    rewrite append_length in E. lia.
  - intros [= -> E]. by rewrite (IH _ E).
Qed.

Lemma with_suffix_named (p : path) (sfx : string) (q : path) :
  with_suffix p sfx = Ok q → p ≠ [].
Proof.
  intros H ->. unfold with_suffix in H. cbn [name] in H.
  destruct (Str.contains "/" sfx); [done |]. by destruct (_ || _).
Qed.

(** The archive stage, as [main] calls it: the archive is a sibling of the
    pack folder, so the tree below the folder stays as it is, and is what
    the archive holds. *)
Lemma build_mcpack_sibling (root mc : path) (w w' : world) :
  with_suffix root ".mcpack" = Ok mc →
  build_mcpack root mc w = (Ok tt, w') →
  (∀ rel, rel ≠ [] → fs w' !! (rel ++ root)%list = fs w !! (rel ++ root)%list) ∧
  fs w' !! mc = Some (File (Zip (subtree (fs w) root))) ∧
  ∃ zip unl,
    with_suffix mc ".zip" = Ok zip ∧ fs w' !! zip = None ∧
    (unl = [] ∨ unl = [EvUnlink mc]) ∧
    log w' = (log w ++ EvMakeArchive zip root :: unl ++ [EvRename zip mc])%list.
Proof.
  intros Hmc H.
  pose proof (with_suffix_named _ _ _ Hmc) as Hroot0.
  apply with_suffix_name in Hmc as (b0 & Hb0 & ->).
  apply build_mcpack_Ok in H
    as (b & m1 & Hb & Hmc & Hne & Hroot & Hext & Hw & Hnd & Hfs & Hlog & _).
  cbv zeta in *. cbn [parent tail] in *.
  rewrite (with_suffix_ext b0 "mcpack") in Hmc by done. injection Hmc as Hbb.
  apply append_cancel_r in Hbb as <-.
  destruct root as [|r d]; [done |]. cbn [parent tail] in *.
  assert (Hbelow : ∀ rel, rel ≠ [] → m1 !! (rel ++ r :: d)%list = fs w !! (rel ++ r :: d)%list).
  { intros rel Hrel. apply (extends_outside _ _ _ _ Hext). intros [Hs _].
    apply suffix_length in Hs. rewrite length_app in Hs. simpl in Hs. lia. }
  assert (Hsub : subtree (<[d // (b0 +:+ ".zip") := File (Blob [])]> m1) (r :: d)
                 = subtree (fs w) (r :: d)).
  { apply subtree_ext. intros rel Hrel. rewrite lookup_insert_ne; [by apply Hbelow |].
    destruct rel; [done | by_length]. }
  rewrite Hsub in Hfs. split; [| split].
  - intros rel Hrel. rewrite Hfs.
    rewrite lookup_insert_ne by (destruct rel; [done | by_length]).
    rewrite !lookup_delete_ne by (destruct rel; [done | by_length]).
    by apply Hbelow.
  - by rewrite Hfs, lookup_insert_eq.
  - eexists _, _. split; [by apply (with_suffix_ext b0 "mcpack") |].
    split; [rewrite Hfs, lookup_insert_ne by done; apply lookup_delete_eq |].
    split; [| exact Hlog]. destruct (exists_in m1 _); auto.
Qed.

(** ** The pack *)

(** [d[key]] on a JSON object. *)
Fixpoint assoc (key : string) (items : list (string * json)) : option json :=
  match items with
  | [] => None
  | (k, v) :: items' => if String.eqb k key then Some v else assoc key items'
  end.

Definition jget (key : string) (v : json) : option json :=
  match v with
  | JDict items => assoc key items
  | _ => None
  end.

(** The content of the manifest: format version 2; a header with the given
    name and description, version [1, 0, 0] and minimal engine version
    [1, 16, 0]; one module, of type "resources" and version [1, 0, 0]. *)
Definition manifest_content (nm descr : string) (mf : json) : Prop :=
  jget "format_version" mf = Some (JInt 2) ∧
  ∃ header module,
    jget "header" mf = Some header ∧
    jget "name" header = Some (JStr nm) ∧
    jget "description" header = Some (JStr descr) ∧
    jget "version" header = Some (JList [JInt 1; JInt 0; JInt 0]) ∧
    jget "min_engine_version" header = Some (JList [JInt 1; JInt 16; JInt 0]) ∧
    jget "modules" mf = Some (JList [module]) ∧
    jget "type" module = Some (JStr "resources") ∧
    jget "version" module = Some (JList [JInt 1; JInt 0; JInt 0]).

Lemma manifest_has_content (nm descr u1 u2 : string) :
  manifest_content nm descr (manifest nm descr u1 u2).
Proof. split; [done |]. eexists _, _. repeat split. Qed.

(** What a run of [main] that returns leaves in and beside the pack folder. *)
Lemma main_pack (a : args) (w w' : world) :
  main a w = (Ok tt, w') →
  let root := output_pack a in
  let src := source_textures a // "blocks" in
  let tgt := root // "textures" // "blocks" in
  let icon := root // "pack_icon.png" in
  let text := Json.dumps (manifest (arg_name a) (arg_description a)
                            (uuid_source w (uuid_drawn w))
                            (uuid_source w (S (uuid_drawn w)))) in
  ∃ w1 w3,
    make_transparent_blocks src tgt w = (Ok tt, w1) ∧
    fs w3 !! (root // "manifest.json") = Some (File (Text text)) ∧
    fs w3 !! icon = (if exists_in (fs w) icon then fs w !! icon
                     else Some (File (Png default_icon))) ∧
    (∀ n, fs w3 !! (tgt // n) = fs w1 !! (tgt // n)) ∧
    log w3 = (log w1 ++ [EvMkdir root; EvWriteText (root // "manifest.json") text] ++
              (if exists_in (fs w) icon then [] else [EvSave default_icon icon]))%list ∧
    (∀ rel, rel ≠ [] → fs w' !! (rel ++ root)%list = fs w3 !! (rel ++ root)%list) ∧
    if no_mcpack a then w' = w3
    else ∃ mc zip unl,
      with_suffix root ".mcpack" = Ok mc ∧
      with_suffix mc ".zip" = Ok zip ∧
      fs w' !! mc = Some (File (Zip (subtree (fs w3) root))) ∧
      fs w' !! zip = None ∧
      (unl = [] ∨ unl = [EvUnlink mc]) ∧
      log w' = (log w3 ++ EvMakeArchive zip root :: unl ++ [EvRename zip mc])%list.
Proof.
  intros H. cbv zeta.
  apply main_Ok in H as (_ & w1 & w2 & w3 & H1 & H2 & H3 & H4). cbv zeta in *.
  exists w1, w3. split; [exact H1 |].
  pose proof (make_transparent_blocks_pack_file _ _ "pack_icon.png" _ _
                ltac:(done) H1) as Hicon1.
  pose proof (make_transparent_blocks_changes _ _ _ _ H1)
    as (_ & _ & _ & _ & _ & Hus & Hud & _).
  destruct (manifest_icon_stages _ _ _ _ _ _ H2 H3) as (_ & Hmf & Hic & Hdeep & Hlog).
  cbv zeta in *. rewrite Hus, Hud in *.
  assert (Hex : exists_in (fs w1) (output_pack a // "pack_icon.png")
                = exists_in (fs w) (output_pack a // "pack_icon.png")).
  { unfold exists_in. by rewrite !stat_cons, Hicon1. }
  rewrite Hex, Hicon1 in *.
  split; [exact Hmf |]. split; [exact Hic |].
  split; [intros n; apply Hdeep; simpl; lia |]. split; [exact Hlog |].
  destruct (no_mcpack a).
  - subst w'. done.
  - destruct H4 as (mc & Hmc & Hb).
    destruct (build_mcpack_sibling _ _ _ _ Hmc Hb)
      as (Hbelow & Hfs & zip & unl & Hzip & Hgone & Hunl & Hlog').
    split; [exact Hbelow |]. by exists mc, zip, unl.
Qed.

(** C4, with the icon as the script treats it.  A run that returns leaves
    [manifest.json] in the pack folder, the JSON text of a manifest with
    format version 2, the given name and description, version [1, 0, 0],
    minimal engine version [1, 16, 0] and one "resources" module of version
    [1, 0, 0]; and it leaves [pack_icon.png]: the 256 x 256 transparent
    RGBA image when nothing had that name before the run, and otherwise
    whatever was there. *)
Theorem main_writes_metadata (a : args) (w w' : world) :
  main a w = (Ok tt, w') →
  let root := output_pack a in
  let icon := root // "pack_icon.png" in
  (∃ mf, fs w' !! (root // "manifest.json") = Some (File (Text (Json.dumps mf))) ∧
         manifest_content (arg_name a) (arg_description a) mf) ∧
  (exists_in (fs w) icon = false →
   fs w' !! icon = Some (File (Png default_icon)) ∧
   uniform_rgba 256 256 (0, 0, 0, 0)%Z default_icon) ∧
  (exists_in (fs w) icon = true → fs w' !! icon = fs w !! icon).
Proof.
  intros H. cbv zeta.
  apply main_pack in H as (w1 & w3 & _ & Hmf & Hic & _ & _ & Hbelow & _). cbv zeta in *.
  pose proof (Hbelow ["manifest.json"] ltac:(done)) as Hb1.
  pose proof (Hbelow ["pack_icon.png"] ltac:(done)) as Hb2.
  cbn [app] in Hb1, Hb2. rewrite Hb1, Hb2, Hmf, Hic. split; [| split].
  - eexists. split; [done |]. apply manifest_has_content.
  - intros ->. split; [done |]. apply Image_new_uniform.
  - by intros ->.
Qed.

Lemma main_writes_metadata_witness :
  fs (snd (main Sample.cli (Sample.start Sample.textures)))
     !! (output_pack Sample.cli // "pack_icon.png") = Some (File (Png default_icon)) ∧
  fs (snd (main Sample.cli (Sample.start Sample.with_icon)))
     !! (output_pack Sample.cli // "pack_icon.png") = Some (File (Png Sample.user_icon)).
Proof.
  split.
  - refine (proj1 (proj1 (proj2 (main_writes_metadata Sample.cli
                                   (Sample.start Sample.textures) _ _)) _)).
    + apply run_returns; vm_compute; reflexivity.
    + vm_compute; reflexivity.
  - etrans.
    + refine (proj2 (proj2 (main_writes_metadata Sample.cli
                              (Sample.start Sample.with_icon) _ _)) _).
      * apply run_returns; vm_compute; reflexivity.
      * vm_compute; reflexivity.
    + vm_compute; reflexivity.
Defined.

(** C4 as it is written fails when the pack folder already has an icon:
    the run returns, and [pack_icon.png] is afterwards the one red pixel
    that was there, not a 256 x 256 image. *)
Lemma icon_kept_counterexample :
  fst (main Sample.cli (Sample.start Sample.with_icon)) = Ok tt ∧
  fs (snd (main Sample.cli (Sample.start Sample.with_icon)))
     !! (output_pack Sample.cli // "pack_icon.png") = Some (File (Png Sample.user_icon)) ∧
  im_width Sample.user_icon = 1%nat ∧
  getpixel Sample.user_icon 0 0 = Some (255, 0, 0, 255)%Z.
Proof. split; [| split; [| split]]; vm_compute; reflexivity. Qed.

(** C5. Without [--no-mcpack], a run that returns ends by renaming the
    temporary zip to the archive: a file beside the pack folder whose name
    is the folder's with the suffix [.mcpack], holding the zip of the pack
    folder as the run leaves it.  So the archive has [manifest.json],
    [pack_icon.png] and an entry [textures/blocks/n] for every [*.png]
    entry [n] of the source folder, the blank image when "diamond" is not
    in the stem of [n]. *)
Theorem main_builds_archive (a : args) (w w' : world) :
  no_mcpack a = false →
  main a w = (Ok tt, w') →
  let root := output_pack a in
  let src := source_textures a // "blocks" in
  ∃ mc zip members earlier,
    with_suffix root ".mcpack" = Ok mc ∧
    Str.endswith ".mcpack" (name mc) = true ∧
    parent mc = parent root ∧
    fs w' !! mc = Some (File (Zip members)) ∧
    members = subtree (fs w') root ∧
    log w' = (earlier ++ [EvRename zip mc])%list ∧
    (∃ mf, members !! ["manifest.json"] = Some (File (Text (Json.dumps mf))) ∧
           manifest_content (arg_name a) (arg_description a) mf) ∧
    is_Some (members !! ["pack_icon.png"]) ∧
    (∀ n, Str.endswith ".png" n = true → is_Some (fs w !! (src // n)) →
          is_Some (members !! ([] // "textures" // "blocks" // n)) ∧
          (is_diamond n = false →
           members !! ([] // "textures" // "blocks" // n)
             = Some (File (Png transparent_img)))).
Proof.
  intros Hno H. cbv zeta.
  apply main_pack in H as (w1 & w3 & H1 & Hmf & Hic & Htex & Hlog3 & Hbelow & H4).
  cbv zeta in *. rewrite Hno in H4.
  destruct H4 as (mc & zip & unl & Hmc & Hzip & Hfs & Hgone & Hunl & Hlog).
  exists mc, zip, (subtree (fs w3) (output_pack a)),
    (log w3 ++ EvMakeArchive zip (output_pack a) :: unl)%list.
  split; [exact Hmc |].
  pose proof Hmc as Hnm. apply with_suffix_name in Hnm as (b & _ & ->).
  split; [apply endswith_append |]. split; [done |]. split; [exact Hfs |].
  split; [apply subtree_ext; intros rel Hrel; symmetry; by apply Hbelow |].
  split; [rewrite Hlog; by rewrite <- app_assoc |].
  split; [| split].
  - rewrite subtree_lookup. cbn [app]. rewrite Hmf. eexists. split; [done |].
    apply manifest_has_content.
  - rewrite subtree_lookup. cbn [app]. rewrite Hic.
    destruct (exists_in (fs w) (output_pack a // "pack_icon.png")) eqn:Hex; [| eauto].
    unfold exists_in in Hex. rewrite stat_cons in Hex.
    destruct (fs w !! (output_pack a // "pack_icon.png")); [eauto | done].
  - intros n Hpng Hn. rewrite subtree_lookup. cbn [app]. rewrite Htex. split.
    + by eapply make_transparent_blocks_entry.
    + intros Hdia. by eapply make_transparent_blocks_blank.
Qed.

Lemma main_builds_archive_witness :
  ∃ members,
    fs (snd (main Sample.cli (Sample.start Sample.textures)))
       !! ([] // "dist" // "XRay_Transparent_Pack.mcpack") = Some (File (Zip members)) ∧
    members !! ([] // "textures" // "blocks" // "stone.png")
      = Some (File (Png transparent_img)).
Proof.
  destruct (main_builds_archive Sample.cli (Sample.start Sample.textures)
              (snd (main Sample.cli (Sample.start Sample.textures))) eq_refl)
    as (mc & zip & members & earlier & Hmc & _ & _ & Hfs & _ & _ & _ & _ & Htex).
  { apply run_returns; vm_compute; reflexivity. }
  assert (E : with_suffix (output_pack Sample.cli) ".mcpack"
              = Ok ([] // "dist" // "XRay_Transparent_Pack.mcpack"))
    by (vm_compute; reflexivity).
  rewrite E in Hmc. injection Hmc as <-.
  exists members. split; [exact Hfs |].
  apply (Htex "stone.png"); [vm_compute; reflexivity | | vm_compute; reflexivity].
  exists (File (Blob [Byte.x01])). vm_compute; reflexivity.
Defined.

(* ===================================================================== *)
(** * Further properties: when the script returns, and when it cannot *)
(* ===================================================================== *)





(** A diamond texture is copied when no directory is in its place. *)
Lemma make_transparent_blocks_copy (src tgt : path) (w w' : world) (n : string) :
  make_transparent_blocks src tgt w = (Ok tt, w') →
  Str.endswith ".png" n = true → is_Some (fs w !! (src // n)) →
  is_diamond n = true → fs w !! (tgt // n) ≠ Some Dir →
  fs w' !! (tgt // n) = fs w !! (src // n).
Proof.
  intros H Hpng Hn Hdia Hfree.
  apply make_transparent_blocks_Ok in H as (_ & m1 & Hmk & Hloop).
  pose proof (glob_after_mkdir src tgt _ _ n Hmk Hpng Hn) as Hin.
  apply mkdir_parents_ok in Hmk as [_ Hext].
  destruct Hn as [y Hy].
  destruct (texture_loop_copy src tgt _ (emit (EvMkdir tgt) (set_fs m1 w)) w' n
              (NoDup_glob_names _ _ _) Hin Hdia) as (x & Hx & Hx'); [| exact Hloop |].
  - cbn [fs emit set_fs]. unfold is_dir_in. rewrite stat_cons.
    rewrite (extends_outside _ _ _ _ Hext)
      by (intros [Hs _]; by apply not_suffix_of_cons in Hs).
    by destruct (fs w !! (tgt // n)) as [[|?]|].
  - cbn [fs emit set_fs] in Hx.
    rewrite (extends_lookup_Some _ _ _ _ _ Hext Hy) in Hx. by rewrite Hy, Hx, Hx'.
Qed.



(** ** Letter case in the names of the textures *)

Lemma lower_char_dot (c : ascii) : Ascii.eqb (Str.lower_char c) "."%char = Ascii.eqb c "."%char.
Proof. destruct c as [[] [] [] [] [] [] [] []]; reflexivity. Qed.

Lemma lower_char_idem (c : ascii) : Str.lower_char (Str.lower_char c) = Str.lower_char c.
Proof. destruct c as [[] [] [] [] [] [] [] []]; reflexivity. Qed.

Lemma lower_idem (s : string) : Str.lower (Str.lower s) = Str.lower s.
Proof. induction s as [|c s IH]; simpl; [done |]. by rewrite lower_char_idem, IH. Qed.

Lemma lower_length (s : string) : String.length (Str.lower s) = String.length s.
Proof. induction s as [|c s IH]; simpl; [done | by rewrite IH]. Qed.

Lemma rfind_dot_lower (s : string) : Str.rfind "."%char (Str.lower s) = Str.rfind "."%char s.
Proof.
  induction s as [|c s IH]; simpl; [done |]. by rewrite IH, lower_char_dot.
Qed.

Lemma upto_lower (i : nat) (s : string) : Str.upto i (Str.lower s) = Str.lower (Str.upto i s).
Proof.
  revert s. induction i as [|i IH]; intros [|c s]; simpl; try done. by rewrite IH.
Qed.

Lemma stem_of_lower (n : string) : stem_of (Str.lower n) = Str.lower (stem_of n).
Proof.
  unfold stem_of, suffix_pos. rewrite rfind_dot_lower, lower_length.
  destruct (Str.rfind "."%char n) as [i|]; [| done].
  destruct (_ && _); [apply upto_lower | done].
Qed.

(** The test for a diamond texture does not see letter case. *)
Lemma is_diamond_lower (n1 n2 : string) :
  Str.lower n1 = Str.lower n2 → is_diamond n1 = is_diamond n2.
Proof.
  intros H. unfold is_diamond.
  rewrite <- (lower_idem (stem_of n1)), <- (lower_idem (stem_of n2)).
  rewrite <- !stem_of_lower. by rewrite H.
Qed.

(** ** Failures of the directory calls *)

Lemma mkdir_parents_file (m : gmap path node) (p : path) (x : data) :
  stat m p = Some (File x) → mkdir_parents m p = Raise FileExistsError.
Proof.
  intros H. destruct p as [|n d]; [done |].
  cbn [mkdir_parents]. unfold os_mkdir, is_dir_in. rewrite H. done.
Qed.

(** X3. A file in the place of the target folder: [make_transparent_blocks]
    raises [FileExistsError] ([mkdir] with [exist_ok] accepts directories
    only), and nothing is created, written or logged. *)
Theorem make_transparent_blocks_target_is_file (src tgt : path) (w : world) (x : data) :
  is_dir_in (fs w) src = true →
  stat (fs w) tgt = Some (File x) →
  make_transparent_blocks src tgt w = (Raise FileExistsError, w).
Proof.
  intros Hdir Hx. unfold make_transparent_blocks. bind_step. rewrite Hdir.
  change (negb true) with false. cbv iota.
  apply bind_raise. unfold Path_mkdir. by rewrite (mkdir_parents_file _ _ _ Hx).
Qed.

Lemma make_transparent_blocks_target_is_file_witness :
  make_transparent_blocks (["vanilla"] // "blocks")
    ([] // "vanilla" // "blocks" // "stone.png") (Sample.start Sample.textures)
  = (Raise FileExistsError, Sample.start Sample.textures).
Proof.
  apply (make_transparent_blocks_target_is_file _ _ _ (Blob [Byte.x01]));
    vm_compute; reflexivity.
Defined.

(** X4. A file in the place of the pack folder: [write_manifest] raises
    [FileExistsError] before anything else happens: no UUID is drawn and
    no manifest is written. *)
Theorem write_manifest_root_is_file (root : path) (nm descr : string) (w : world) (x : data) :
  stat (fs w) root = Some (File x) →
  write_manifest root nm descr w = (Raise FileExistsError, w).
Proof.
  intros Hx. unfold write_manifest.
  apply bind_raise. unfold Path_mkdir. by rewrite (mkdir_parents_file _ _ _ Hx).
Qed.

Lemma write_manifest_root_is_file_witness :
  write_manifest ([] // "vanilla" // "blocks" // "stone.png") "N" "D"
    (Sample.start Sample.textures)
  = (Raise FileExistsError, Sample.start Sample.textures).
Proof.
  apply (write_manifest_root_is_file _ _ _ _ (Blob [Byte.x01])).
  vm_compute; reflexivity.
Defined.

(** X5. A source folder without [*.png] entries: a call that returns has
    made the target folder and nothing else; the log grows by the [mkdir]
    alone and no file is created or changed. *)
Theorem make_transparent_blocks_no_textures (src tgt : path) (w w' : world) :
  ¬ src `suffix_of` tgt →
  (∀ n, Str.endswith ".png" n = true → fs w !! (src // n) = None) →
  make_transparent_blocks src tgt w = (Ok tt, w') →
  log w' = (log w ++ [EvMkdir tgt])%list ∧
  is_dir_in (fs w') tgt = true ∧
  ∀ q, fs w' !! q = fs w !! q ∨
       (q `suffix_of` tgt ∧ fs w !! q = None ∧ fs w' !! q = Some Dir).
Proof.
  intros Hst Hnone H.
  apply make_transparent_blocks_Ok in H as (_ & m1 & Hmk & Hloop).
  apply mkdir_parents_ok in Hmk as [Hdir Hext].
  assert (Hnil : glob_names m1 src "*.png" = []).
  { destruct (glob_names m1 src "*.png") as [|n l] eqn:Hl; [done |].
    assert (Hin : n ∈ glob_names m1 src "*.png") by (rewrite Hl; left).
    apply elem_of_glob_png in Hin as [Hpng [x Hx]].
    rewrite (extends_outside _ _ _ _ Hext) in Hx.
    - by rewrite (Hnone n Hpng) in Hx.
    - intros [Hs _]. apply Hst. etrans; [| exact Hs]. by apply suffix_cons_r. }
  rewrite Hnil in Hloop. apply pass_Ok in Hloop as ->. cbn [fs log emit set_fs].
  split; [done |]. split; [done |].
  intros q. destruct (Hext q) as [? | (? & ? & ? & _)]; auto.
Qed.

Lemma make_transparent_blocks_no_textures_witness :
  log (snd (make_transparent_blocks ["vanilla"] ["out"] (Sample.start Sample.textures)))
  = [EvMkdir ["out"]].
Proof.
  refine (proj1 (make_transparent_blocks_no_textures ["vanilla"] ["out"]
                   (Sample.start Sample.textures) _ _ _ _)).
  - intros Hs. apply suffix_of_cons in Hs as [E | Hs]; [done |].
    by apply suffix_nil_inv in Hs.
  - intros n Hpng. destruct (fs (Sample.start Sample.textures) !! (["vanilla"] // n))
      as [x|] eqn:Hx; [| done].
    assert (Hin : n ∈ listdir (fs (Sample.start Sample.textures)) ["vanilla"])
      by (apply elem_of_listdir; eauto).
    assert (Els : listdir (fs (Sample.start Sample.textures)) ["vanilla"] = ["blocks"])
      by (vm_compute; reflexivity).
    rewrite Els in Hin. apply list_elem_of_singleton in Hin as ->.
    vm_compute in Hpng. discriminate Hpng.
  - apply run_returns; vm_compute; reflexivity.
Defined.

(** The icon stage returns when the pack folder is a directory. *)
Lemma write_default_icon_returns (root : path) (w : world) :
  is_dir_in (fs w) root = true → ∃ w', write_default_icon root w = (Ok tt, w').
Proof.
  intros Hdir. unfold write_default_icon. bind_step.
  destruct (exists_in (fs w) (root // "pack_icon.png")) eqn:Hex.
  - eexists. reflexivity.
  - unfold Image_save.
    change (negb (String.eqb (Str.lower (splitext_ext (name (root // "pack_icon.png"))))
                    ".png")) with false. cbv iota.
    unfold open_w. unfold exists_in in Hex. rewrite stat_cons in *. cbn [parent tail].
    destruct (fs w !! (root // "pack_icon.png")); [done |].
    unfold is_dir_in in Hdir. destruct (stat (fs w) root) as [[|?]|]; try done.
    eexists. reflexivity.
Qed.

(** X6. The icon stage cannot fail after the manifest stage: when
    [write_manifest] has returned, [write_default_icon] on the same pack
    folder returns too. *)
Theorem write_default_icon_after_manifest (root : path) (nm descr : string) (w w2 : world) :
  write_manifest root nm descr w = (Ok tt, w2) →
  ∃ w3, write_default_icon root w2 = (Ok tt, w3).
Proof.
  intros H. apply write_default_icon_returns.
  apply write_manifest_Ok in H as (m1 & Hmk & _ & Hfs & _). cbv zeta in *.
  apply mkdir_parents_ok in Hmk as [Hdir _].
  rewrite Hfs, is_dir_in_insert_ne by apply not_eq_sym, cons_neq_self. done.
Qed.

Lemma write_default_icon_after_manifest_witness :
  ∃ w3, write_default_icon ["pack"]
          (snd (write_manifest ["pack"] "N" "D" (Sample.start Sample.textures)))
        = (Ok tt, w3).
Proof.
  apply (write_default_icon_after_manifest ["pack"] "N" "D" (Sample.start Sample.textures)).
  apply run_returns; vm_compute; reflexivity.
Defined.

(** ** The archive stage *)

(** X7. A directory in the place of the archive.  When the pack folder and
    the folder of [output_file] are directories and nothing but a
    directory at the [.mcpack] path stands in the way, [build_mcpack]
    raises (unlinking a directory) after the zip was made: the directory
    is still there, the temporary [.zip] is left behind, and nothing else
    has changed. *)
Theorem build_mcpack_directory_in_the_way (root out mc zip : path) (w : world) :
  with_suffix out ".mcpack" = Ok mc →
  with_suffix mc ".zip" = Ok zip →
  is_dir_in (fs w) root = true →
  is_dir_in (fs w) (parent out) = true →
  fs w !! zip ≠ Some Dir →
  is_dir_in (fs w) mc = true →
  ∃ w',
    build_mcpack root out w = (Raise IsADirectoryError, w') ∧
    fs w' !! mc = Some Dir ∧
    (∃ members, fs w' !! zip = Some (File (Zip members))) ∧
    ∀ q, q ≠ zip → fs w' !! q = fs w !! q.
Proof.
  intros Hmc Hzip Hroot Hpar Hfree Hdir.
  destruct (mcpack_names _ _ Hmc) as (b & Hb & -> & Hzip' & Hbase & Hne).
  rewrite Hzip' in Hzip. injection Hzip as <-.
  set (mc := (b +:+ ".mcpack") :: parent out) in *.
  set (zip := (b +:+ ".zip") :: parent out) in *.
  assert (Hw : open_w (fs w) zip = Ok tt).
  { unfold open_w. unfold zip at 1. rewrite stat_cons. fold zip. cbn [parent tail].
    destruct (fs w !! zip) as [[|?]|] eqn:Hz; [by destruct Hfree | done |].
    change (parent zip) with (parent out). unfold is_dir_in in Hpar. by destruct (stat (fs w) (parent out)) as [[|?]|]. }
  set (z := Zip (subtree (<[zip := File (Blob [])]> (fs w)) root)).
  exists (emit (EvMakeArchive zip root)
            (set_fs (<[zip := File z]> (<[zip := File (Blob [])]> (fs w))) w)).
  split; [| split; [| split]]; cbn [fs emit set_fs].
  - unfold build_mcpack, lift, mbind, M_bind. rewrite Hmc. fold mc. rewrite Hzip', Hbase.
    unfold shutil_make_archive. cbn [add_ext parent tail].
    unfold is_dir_in in Hroot. destruct (stat (fs w) root) as [[|?]|]; try done.
    assert (Hex : exists_in (fs w) (parent out) = true).
    { unfold exists_in, is_dir_in in *. by destruct (stat (fs w) (parent out)) as [[|?]|]. }
    rewrite Hex. fold zip. rewrite Hw. fold z.
    unfold Path_exists, Path_unlink, exists_in. cbn [fs emit set_fs].
    assert (Hst : stat (<[zip := File z]> (<[zip := File (Blob [])]> (fs w))) mc = Some Dir).
    { rewrite !stat_insert_ne by done. unfold is_dir_in in Hdir.
      by destruct (stat (fs w) mc) as [[|?]|]. }
    rewrite Hst.
    change (fs (emit (EvMakeArchive zip root)
                  (set_fs (<[zip := File z]> (<[zip := File (Blob [])]> (fs w))) w)))
      with (<[zip := File z]> (<[zip := File (Blob [])]> (fs w))).
    rewrite Hst. done.
  - rewrite !lookup_insert_ne by done. by apply is_dir_in_lookup.
  - exists (subtree (<[zip := File (Blob [])]> (fs w)) root). by rewrite lookup_insert_eq.
  - intros q Hq. by rewrite !lookup_insert_ne.
Qed.

Lemma build_mcpack_directory_witness :
  ∃ w',
    build_mcpack ["vanilla"] ([] // "vanilla" // "blocks.mcpack")
      (Sample.start (<[ [] // "vanilla" // "blocks.mcpack" := Dir ]> Sample.textures))
    = (Raise IsADirectoryError, w') ∧
    ∃ members, fs w' !! ([] // "vanilla" // "blocks.zip") = Some (File (Zip members)).
Proof.
  destruct (build_mcpack_directory_in_the_way ["vanilla"] ([] // "vanilla" // "blocks.mcpack")
              ([] // "vanilla" // "blocks.mcpack") ([] // "vanilla" // "blocks.zip")
              (Sample.start (<[ [] // "vanilla" // "blocks.mcpack" := Dir ]> Sample.textures)))
    as (w' & Hrun & _ & Hzip & _);
    [vm_compute; reflexivity | vm_compute; reflexivity | vm_compute; reflexivity
    | vm_compute; reflexivity | vm_compute; discriminate | vm_compute; reflexivity |].
  exists w'. split; [exact Hrun | exact Hzip].
Defined.

(** X8. A pack folder named like an archive.  Without [--no-mcpack], a run
    cannot return when the name of the pack folder has the suffix [.zip]
    or [.mcpack]: the temporary zip or the archive would have the path of
    the pack folder itself. *)
Theorem main_pack_named_like_archive (a : args) (b : string) (w w' : world) (o : outcome unit) :
  no_mcpack a = false →
  b ≠ "" →
  name (output_pack a) = b +:+ ".zip" ∨ name (output_pack a) = b +:+ ".mcpack" →
  main a w = (o, w') →
  o ≠ Ok tt.
Proof.
  intros Hno Hb Hname Hrun ->.
  apply main_Ok in Hrun as (_ & w1 & w2 & w3 & _ & H2 & H3 & H4). cbv zeta in *.
  rewrite Hno in H4. destruct H4 as (mc & Hmc & Hbuild).
  destruct (manifest_icon_stages _ _ _ _ _ _ H2 H3) as (Hdir & _).
  pose proof (with_suffix_named _ _ _ Hmc) as Hroot.
  destruct (output_pack a) as [|nm d] eqn:Hout; [done |]. cbn [name] in Hname.
  apply build_mcpack_Ok in Hbuild
    as (b' & m1 & _ & Hmc' & _ & _ & Hext & Hw & Hnd & _). cbv zeta in *.
  assert (Hdir1 : m1 !! (nm :: d) = Some Dir).
  { apply is_dir_in_lookup. by eapply is_dir_in_extends. }
  destruct Hname as [-> | ->].
  - rewrite (with_suffix_ext b "zip") in Hmc by done. injection Hmc as <-.
    cbn [parent tail] in *.
    rewrite (with_suffix_ext b "mcpack") in Hmc' by done. injection Hmc' as Hbb.
    apply append_cancel_r in Hbb as <-.
    apply open_w_ok in Hw as [_ Hw]. done.
  - rewrite (with_suffix_ext b "mcpack") in Hmc by done. injection Hmc as <-.
    cbn [parent tail] in *.
    rewrite (with_suffix_ext b "mcpack") in Hmc' by done. injection Hmc' as Hbb.
    apply append_cancel_r in Hbb as <-. done.
Qed.

(** A command line that asks for a pack folder named [pack.zip]. *)
Definition cli_zip_folder : args :=
  {| source_textures := ["vanilla"]; output_pack := [] // "dist" // "pack.zip";
     arg_name := "N"; arg_description := "D"; no_mcpack := false |}.

Lemma main_pack_named_like_archive_witness :
  name (output_pack cli_zip_folder) = "pack" +:+ ".zip" ∧
  fst (main cli_zip_folder (Sample.start Sample.textures)) ≠ Ok tt.
Proof.
  split; [reflexivity |].
  apply (main_pack_named_like_archive cli_zip_folder "pack" (Sample.start Sample.textures)
           (snd (main cli_zip_folder (Sample.start Sample.textures))));
    [reflexivity | done | by left |].
  apply surjective_pairing.
Defined.

(** ** What a run leaves alone *)

(** X9. A run that returns changes nothing outside the pack: every path
    leads to what it led to before, unless it is the pack folder or a
    folder on the way to it, or lies inside the pack folder, or (without
    [--no-mcpack]) is the archive or the temporary zip beside the pack
    folder.  In particular a source folder outside the pack folder is left
    as it was. *)
Theorem main_touches_only_the_pack (a : args) (w w' : world) :
  main a w = (Ok tt, w') →
  ∀ q, fs w' !! q = fs w !! q ∨
       q `suffix_of` output_pack a ∨
       output_pack a `suffix_of` q ∨
       (no_mcpack a = false ∧
        ∃ mc, with_suffix (output_pack a) ".mcpack" = Ok mc ∧
              (q = mc ∨ with_suffix mc ".zip" = Ok q)).
Proof.
  intros H q.
  apply main_Ok in H as (_ & w1 & w2 & w3 & H1 & H2 & H3 & H4). cbv zeta in *.
  set (root := output_pack a) in *.
  (* the textures *)
  assert (S1 : fs w1 !! q = fs w !! q ∨ q `suffix_of` root ∨ root `suffix_of` q).
  { apply make_transparent_blocks_changes in H1 as (names & evs & _ & _ & Hfs & _).
    destruct (Hfs q) as [? | [(Hs & _) | ((n & _ & Hcase) & _)]]; [by left | |].
    - right. apply suffix_of_cons in Hs as [-> | Hs].
      { right. by exists ["blocks"; "textures"]. }
      apply suffix_of_cons in Hs as [-> | Hs]; [right; by exists ["textures"] | by left].
    - right. right. destruct Hcase as [-> | [-> _]].
      + by exists [n; "blocks"; "textures"].
      + by exists [n; n; "blocks"; "textures"]. }
  (* the manifest *)
  assert (S2 : fs w2 !! q = fs w1 !! q ∨ q `suffix_of` root ∨ root `suffix_of` q).
  { apply write_manifest_Ok in H2 as (m1 & Hmk & _ & Hfs & _). cbv zeta in *.
    apply mkdir_parents_ok in Hmk as [_ Hext]. rewrite Hfs.
    destruct (decide (q = root // "manifest.json")) as [-> | Hne].
    { right. right. by exists ["manifest.json"]. }
    rewrite lookup_insert_ne by done.
    destruct (Hext q) as [? | (_ & _ & Hs & _)]; auto. }
  (* the icon *)
  assert (S3 : fs w3 !! q = fs w2 !! q ∨ root `suffix_of` q).
  { apply write_default_icon_Ok in H3 as [[_ ->] | (_ & _ & ->)]; [by left |].
    cbn [fs emit set_fs].
    destruct (decide (q = root // "pack_icon.png")) as [-> | Hne].
    { right. by exists ["pack_icon.png"]. }
    left. by rewrite lookup_insert_ne. }
  (* the archive *)
  assert (S4 : fs w' !! q = fs w3 !! q ∨ q `suffix_of` root ∨
               (no_mcpack a = false ∧
                ∃ mc, with_suffix root ".mcpack" = Ok mc ∧
                      (q = mc ∨ with_suffix mc ".zip" = Ok q))).
  { destruct (no_mcpack a); [left; by subst w' |].
    destruct H4 as (mc & Hmc & Hb).
    pose proof (with_suffix_named _ _ _ Hmc) as Hroot.
    pose proof (with_suffix_name _ _ _ Hmc) as (b0 & Hb0 & Emc).
    apply build_mcpack_Ok in Hb
      as (b & m1 & _ & Hmc' & _ & _ & Hext & _ & _ & Hfs & _). cbv zeta in *.
    rewrite Emc in Hmc', Hext, Hfs. cbn [parent tail] in *.
    rewrite (with_suffix_ext b0 "mcpack") in Hmc' by done. injection Hmc' as Hbb.
    apply append_cancel_r in Hbb as <-.
    destruct (decide (q = mc)) as [-> | Hne1].
    { right. right. split; [done |]. exists mc. auto. }
    destruct (decide (q = (b0 +:+ ".zip") :: parent root)) as [-> | Hne2].
    { right. right. split; [done |]. exists mc. split; [done |]. right.
      rewrite Emc. by apply (with_suffix_ext b0 "mcpack"). }
    rewrite Emc in Hne1.
    assert (Efs : fs w' !! q = m1 !! q).
    { rewrite Hfs, lookup_insert_ne by done. by rewrite !lookup_delete_ne. }
    rewrite Efs.
    destruct (Hext q) as [? | (_ & _ & Hs & _)]; [by left |].
    right. left. destruct root as [|r d]; [done |]. by apply suffix_cons_r. }
  destruct S4 as [E4 | [? | ?]]; [| by right; left | by right; right; right].
  destruct S3 as [E3 | ?]; [| by right; right; left].
  destruct S2 as [E2 | [? | ?]]; [| by right; left | by right; right; left].
  destruct S1 as [E1 | [? | ?]]; [| by right; left | by right; right; left].
  left. congruence.
Qed.

Lemma main_touches_only_the_pack_witness :
  fs (snd (main Sample.cli (Sample.start Sample.textures)))
     !! ([] // "vanilla" // "blocks" // "stone.png")
  = Some (File (Blob [Byte.x01])).
Proof.
  destruct (main_touches_only_the_pack Sample.cli (Sample.start Sample.textures)
              (snd (main Sample.cli (Sample.start Sample.textures)))
              ltac:(apply run_returns; vm_compute; reflexivity)
              ([] // "vanilla" // "blocks" // "stone.png"))
    as [E | [Hs | [Hs | (_ & mc & Hmc & [E | Hz])]]].
  - rewrite E. vm_compute; reflexivity.
  - exfalso. apply suffix_length in Hs. simpl in Hs. lia.
  - exfalso. destruct Hs as [k Hk]. apply (f_equal (λ l : path, last l)) in Hk.
    rewrite last_app in Hk. simpl in Hk. discriminate Hk.
  - exfalso.
    assert (Emc : with_suffix (output_pack Sample.cli) ".mcpack"
                  = Ok ([] // "dist" // "XRay_Transparent_Pack.mcpack"))
      by (vm_compute; reflexivity).
    rewrite Emc in Hmc. injection Hmc as <-. discriminate E.
  - exfalso.
    assert (Emc : with_suffix (output_pack Sample.cli) ".mcpack"
                  = Ok ([] // "dist" // "XRay_Transparent_Pack.mcpack"))
      by (vm_compute; reflexivity).
    rewrite Emc in Hmc. injection Hmc as <-.
    assert (Ez : with_suffix ([] // "dist" // "XRay_Transparent_Pack.mcpack") ".zip"
                 = Ok ([] // "dist" // "XRay_Transparent_Pack.zip"))
      by (vm_compute; reflexivity).
    rewrite Ez in Hz. discriminate Hz.
Defined.

(** ** When a whole run returns *)


















(* ===================================================================== *)
(** * One pass over the textures, whatever its outcome *)
(* ===================================================================== *)

(** A step that raises leaves the world as it was. *)
Lemma texture_step_Raise (src tgt : path) (n : string) (w w' : world) (e : exn) :
  texture_step src tgt n w = (Raise e, w') → w' = w.
Proof.
  unfold texture_step. cbv zeta. destruct (is_diamond _).
  - unfold mbind, M_bind, shutil_copy2.
    destruct (_ && _); [by intros [= _ <-] |].
    destruct (open_r _ _); [| by intros [= _ <-]].
    destruct (open_w _ _); [done | by intros [= _ <-]].
  - unfold Image_save. destruct (negb _); [by intros [= _ <-] |].
    destruct (open_w _ _); [done | by intros [= _ <-]].
Qed.

(** A loop leaves the world its steps up to the first exception made:
    whatever its outcome, it has run through a first part of the list. *)
Lemma for_each_done {A} (body : A → M unit) (l : list A) (w w' : world) (o : outcome unit) :
  (∀ x w0 e w1, body x w0 = (Raise e, w1) → w1 = w0) →
  for_each l body w = (o, w') →
  ∃ l1 l2, l = (l1 ++ l2)%list ∧ for_each l1 body w = (Ok tt, w') ∧
           (o = Ok tt → l2 = []).
Proof.
  intros Hbody. revert w. induction l as [|x l IH]; intros w; cbn [for_each].
  - intros [= <- <-]. by exists [], [].
  - unfold mbind, M_bind. destruct (body x w) as [[[] | e] w1] eqn:Hx.
    + intros H. destruct (IH _ H) as (l1 & l2 & -> & Hl1 & Hl2).
      exists (x :: l1), l2. split; [done |]. split; [| done].
      cbn [for_each]. unfold mbind, M_bind. by rewrite Hx.
    + intros [= <- <-]. apply Hbody in Hx as ->.
      exists [], (x :: l). split; [done |]. split; [done | discriminate].
Qed.

(** The call, whatever its outcome: nothing was done, or the target folder
    was made and the loop ran through a first part of the [*.png] entries
    (all of them, if the call returns). *)
Lemma make_transparent_blocks_done (src tgt : path) (w w' : world) (o : outcome unit) :
  make_transparent_blocks src tgt w = (o, w') →
  (w' = w ∧ o ≠ Ok tt) ∨
  (is_dir_in (fs w) src = true ∧
   ∃ m1 l1 l2,
     mkdir_parents (fs w) tgt = Ok m1 ∧
     glob_names m1 src "*.png" = (l1 ++ l2)%list ∧
     for_each l1 (texture_step src tgt) (emit (EvMkdir tgt) (set_fs m1 w)) = (Ok tt, w') ∧
     (o = Ok tt → l2 = [])).
Proof.
  unfold make_transparent_blocks, mbind, M_bind, Path_is_dir, Path_mkdir, Path_glob.
  destruct (is_dir_in (fs w) src) eqn:Hdir; cbn [negb];
    [| intros [= <- <-]; by left].
  destruct (mkdir_parents (fs w) tgt) as [m1 | e] eqn:Hmk;
    [| intros [= <- <-]; by left].
  intros H. right. split; [done |].
  apply for_each_done in H as (l1 & l2 & Hl & Hl1 & Hl2);
    [| intros ? ? ? ?; apply texture_step_Raise].
  by exists m1, l1, l2.
Qed.

Lemma texture_logged_processed (src tgt : path) (m : gmap path node) (n : string) :
  texture_processed src tgt m n (texture_logged src tgt m n).
Proof.
  unfold texture_processed, texture_logged. destruct (is_diamond n); [| done].
  eexists. split; [done |]. intros Hnd. unfold is_dir_in. rewrite stat_cons.
  by destruct (m !! (tgt // n)) as [[|?]|].
Qed.

Lemma texture_step_logged (src tgt : path) (n : string) (w w' : world) (u : unit) :
  texture_step src tgt n w = (Ok u, w') →
  log w' = (log w ++ [texture_logged src tgt (fs w) n])%list.
Proof.
  unfold texture_step, texture_logged. cbv zeta.
  change (name (src // n)) with n. destruct (is_diamond n).
  - intros H. apply bind_Ok in H as (r & w1 & Hcp & Hp). apply pass_Ok in Hp as ->.
    apply shutil_copy2_Ok in Hcp as (-> & _ & _ & x & _ & ->). done.
  - intros H. apply Image_save_Ok in H as [_ ->]. done.
Qed.

(** The log of the loop: one event for each name, in the order of the
    list, as the state before the loop determines them. *)
Lemma texture_loop_logged (src tgt : path) (l : list string) (m : gmap path node)
    (w w' : world) :
  NoDup l →
  (∀ n, n ∈ l → is_dir_in m (tgt // n) = is_dir_in (fs w) (tgt // n)) →
  for_each l (texture_step src tgt) w = (Ok tt, w') →
  log w' = (log w ++ map (texture_logged src tgt m) l)%list.
Proof.
  intros Hnd. revert w. induction Hnd as [|n0 l Hnotin Hnd IH]; intros w Hm; cbn [for_each].
  { intros Hp. apply pass_Ok in Hp as ->. by rewrite app_nil_r. }
  intros H. apply bind_Ok in H as ([] & w1 & Hstep & Hrest).
  pose proof (texture_step_logged _ _ _ _ _ _ Hstep) as Hlog1.
  apply texture_step_Ok in Hstep as (dst & x & e & -> & _ & _ & Hdst).
  apply (texture_step_dst src tgt n0 (fs w)) in Hdst.
  assert (Hm1 : ∀ n, n ∈ l → is_dir_in m (tgt // n) =
                  is_dir_in (fs (emit e (set_fs (<[dst := File x]> (fs w)) w))) (tgt // n)).
  { intros n Hn. rewrite (Hm n) by by right. cbn [fs emit set_fs].
    rewrite is_dir_in_insert_ne; [done |].
    assert (Hne : n ≠ n0) by (intros ->; done).
    destruct Hdst as [-> | [-> _]]; intros [=]; [done |].
    by eapply cons_neq_self. }
  rewrite (IH _ Hm1 Hrest), Hlog1.
  cbn [map]. rewrite <- app_assoc. do 2 f_equal.
  unfold texture_logged. by rewrite (Hm n0) by by left.
Qed.

(** Making the target folder leaves the entries of the target folder as
    they were. *)
Lemma mkdir_parents_entry (m m1 : gmap path node) (tgt : path) (n : string) :
  mkdir_parents m tgt = Ok m1 → m1 !! (tgt // n) = m !! (tgt // n).
Proof.
  intros Hmk. apply mkdir_parents_ok in Hmk as [_ Hext].
  apply (extends_outside _ _ _ _ Hext). intros [Hs _]. by apply not_suffix_of_cons in Hs.
Qed.

Lemma is_dir_in_entry (m m1 : gmap path node) (p : path) (n : string) :
  m1 !! (p // n) = m !! (p // n) → is_dir_in m1 (p // n) = is_dir_in m (p // n).
Proof. unfold is_dir_in. rewrite !stat_cons. by intros ->. Qed.

(** The log of a call that returns. *)
Lemma make_transparent_blocks_logged (src tgt : path) (w w' : world) :
  make_transparent_blocks src tgt w = (Ok tt, w') →
  ∃ m1, mkdir_parents (fs w) tgt = Ok m1 ∧
        log w' = (log w ++ EvMkdir tgt ::
                  map (texture_logged src tgt (fs w)) (glob_names m1 src "*.png"))%list.
Proof.
  intros H. apply make_transparent_blocks_Ok in H as (_ & m1 & Hmk & Hloop).
  exists m1. split; [done |].
  assert (Hm : ∀ n, n ∈ glob_names m1 src "*.png" →
                 is_dir_in (fs w) (tgt // n) =
                 is_dir_in (fs (emit (EvMkdir tgt) (set_fs m1 w))) (tgt // n)).
  { intros n _. cbn [fs emit set_fs]. symmetry.
    by apply is_dir_in_entry, mkdir_parents_entry. }
  rewrite (texture_loop_logged src tgt _ (fs w) _ _ (NoDup_glob_names _ _ _) Hm Hloop).
  cbn [log emit set_fs]. by rewrite <- app_assoc.
Qed.

(** A [*.png] entry whose place in the target folder is not taken by a
    directory has its file there after a call that returns: the source
    file for a diamond texture, the transparent image for any other. *)
Lemma make_transparent_blocks_written (src tgt : path) (w w' : world) (n : string) :
  make_transparent_blocks src tgt w = (Ok tt, w') →
  Str.endswith ".png" n = true → is_Some (fs w !! (src // n)) →
  fs w !! (tgt // n) ≠ Some Dir →
  ∃ x, fs w' !! (tgt // n) = Some (File x) ∧
       if is_diamond n then fs w !! (src // n) = Some (File x)
       else x = Png transparent_img.
Proof.
  intros H Hpng Hn Hfree. destruct (is_diamond n) eqn:Hdia.
  - apply make_transparent_blocks_Ok in H as (_ & m1 & Hmk & Hloop).
    pose proof (glob_after_mkdir src tgt _ _ n Hmk Hpng Hn) as Hin.
    destruct (texture_loop_copy src tgt _ (emit (EvMkdir tgt) (set_fs m1 w)) w' n
                (NoDup_glob_names _ _ _) Hin Hdia) as (x & Hx & Hx'); [| exact Hloop |].
    + cbn [fs emit set_fs].
      rewrite (is_dir_in_entry (fs w)) by by eapply mkdir_parents_entry.
      unfold is_dir_in. rewrite stat_cons. by destruct (fs w !! (tgt // n)) as [[|?]|].
    + exists x. split; [done |]. cbn [fs emit set_fs] in Hx.
      apply mkdir_parents_ok in Hmk as [_ Hext]. destruct Hn as [y Hy].
      rewrite (extends_lookup_Some _ _ _ _ _ Hext Hy) in Hx. by rewrite Hy, Hx.
  - rewrite (make_transparent_blocks_blank _ _ _ _ _ H Hpng Hn Hdia). eauto.
Qed.

(** C3, for a target that is not the source folder or a folder inside it.
    Whatever the outcome of the call, nothing at or below [source_blocks]
    is changed or removed, and every path that changed is on the way to
    [target_blocks] or inside it.  A call that returns has run once over
    the [*.png] entries directly in [source_blocks] ([names], each once,
    no other entry and no entry of a subfolder among them): after the
    [mkdir] the log grows by exactly one copy or save for each name, in
    order; each name whose place in [target_blocks] was not taken by a
    directory has its file there (the source file for a diamond texture,
    the transparent image for any other); and no entry of [target_blocks]
    changed but under one of the names. *)
Theorem make_transparent_blocks_frame (src tgt : path) (w w' : world) (o : outcome unit) :
  ¬ src `suffix_of` tgt →
  make_transparent_blocks src tgt w = (o, w') →
  (∀ q, src `suffix_of` q → fs w' !! q = fs w !! q) ∧
  (∀ q, fs w' !! q ≠ fs w !! q → q `suffix_of` tgt ∨ tgt `suffix_of` q) ∧
  (o = Ok tt →
   ∃ names evs,
     NoDup names ∧
     (∀ n, n ∈ names ↔ Str.endswith ".png" n = true ∧ is_Some (fs w !! (src // n))) ∧
     log w' = (log w ++ EvMkdir tgt :: evs)%list ∧
     Forall2 (texture_processed src tgt (fs w)) names evs ∧
     (∀ n, n ∈ names → fs w !! (tgt // n) ≠ Some Dir →
           ∃ x, fs w' !! (tgt // n) = Some (File x) ∧
                if is_diamond n then fs w !! (src // n) = Some (File x)
                else x = Png transparent_img) ∧
     (∀ n, fs w' !! (tgt // n) ≠ fs w !! (tgt // n) → n ∈ names)).
Proof.
  intros Hst H. pose proof H as Hrun.
  apply make_transparent_blocks_done in H
    as [[-> Ho] | (Hdir & m1 & l1 & l2 & Hmk & Hglob & Hloop & Hall)].
  { split; [done |]. split; [done |]. intros ->. done. }
  pose proof (mkdir_parents_ok _ _ _ Hmk) as [_ Hext].
  assert (Hsrc : ∀ q, src `suffix_of` q → m1 !! q = fs w !! q).
  { intros q Hq. apply (extends_outside _ _ _ _ Hext). intros [Hs _].
    apply Hst. by etrans. }
  pose proof (texture_loop_changes _ _ _ _ _ Hloop) as (Hfs & _ & _ & _).
  cbn [fs emit set_fs] in Hfs.
  split; [| split].
  - intros q Hq. rewrite <- (Hsrc q Hq).
    apply (texture_loop_source src tgt _ _ _ Hst) with (q := q) in Hloop; [done | | done].
    cbn [fs emit set_fs]. by eapply is_dir_in_extends.
  - intros q Hq. destruct (Hfs q) as [Heq | ((n & _ & Hcase) & _)].
    + left. destruct (Hext q) as [Heq' | (_ & _ & Hs & _)]; [congruence | done].
    + right. destruct Hcase as [-> | [-> _]].
      * by apply suffix_cons_r.
      * by do 2 apply suffix_cons_r.
  - intros ->. rewrite (Hall eq_refl), app_nil_r in Hglob. subst l1.
    destruct (make_transparent_blocks_logged _ _ _ _ Hrun) as (m1' & Hmk' & Hlog).
    rewrite Hmk in Hmk'. injection Hmk' as <-.
    assert (Hnames : ∀ n, n ∈ glob_names m1 src "*.png" ↔
                          Str.endswith ".png" n = true ∧ is_Some (fs w !! (src // n))).
    { intros n. rewrite elem_of_glob_png, Hsrc; [done |]. by apply suffix_cons_r. }
    exists (glob_names m1 src "*.png"),
      (map (texture_logged src tgt (fs w)) (glob_names m1 src "*.png")).
    split; [apply NoDup_glob_names |]. split; [exact Hnames |]. split; [exact Hlog |].
    split; [| split].
    + apply Forall2_fmap_r, Forall_Forall2_diag, Forall_forall.
      intros n _. apply texture_logged_processed.
    + intros n Hn Hfree. apply Hnames in Hn as [Hpng Hn].
      by eapply make_transparent_blocks_written.
    + intros n Hq. destruct (Hfs (tgt // n)) as [Heq | ((n' & Hin & Hcase) & _)].
      * destruct Hq. rewrite Heq. by eapply mkdir_parents_entry.
      * destruct Hcase as [E | [E _]].
        -- by injection E as ->.
        -- injection E as _ E. by apply cons_neq_self in E.
Qed.

Lemma make_transparent_blocks_frame_witness :
  fs (snd (make_transparent_blocks (["vanilla"] // "blocks") ["out"]
             (Sample.start Sample.textures)))
     !! ([] // "vanilla" // "blocks" // "stone.png") = Some (File (Blob [Byte.x01])) ∧
  ∃ evs,
    log (snd (make_transparent_blocks (["vanilla"] // "blocks") ["out"]
                (Sample.start Sample.textures))) = EvMkdir ["out"] :: evs.
Proof.
  assert (Hrun : make_transparent_blocks (["vanilla"] // "blocks") ["out"]
                   (Sample.start Sample.textures)
                 = (Ok tt, snd (make_transparent_blocks (["vanilla"] // "blocks") ["out"]
                                  (Sample.start Sample.textures))))
    by (apply run_returns; vm_compute; reflexivity).
  assert (Hst : ¬ (["vanilla"] // "blocks") `suffix_of` ["out"]).
  { intros Hs. apply suffix_length in Hs. simpl in Hs. lia. }
  destruct (make_transparent_blocks_frame _ _ _ _ _ Hst Hrun) as (Hsrc & _ & Hret).
  destruct (Hret eq_refl) as (names & evs & _ & _ & Hlog & _).
  split.
  - rewrite Hsrc by (by exists ["stone.png"]). vm_compute; reflexivity.
  - exists evs. exact Hlog.
Defined.

(** C3 as it is written fails when the target is the source folder: the
    script, pointed at the textures of the pack it writes, returns, and
    the texture [stone.png] directly in the source folder is no longer the
    file it was: it was blanked in place. *)
Lemma source_overwritten_counterexample :
  fst (make_transparent_blocks (["pack"] // "textures" // "blocks")
         (["pack"] // "textures" // "blocks") (Sample.start Sample.own_pack)) = Ok tt ∧
  Sample.own_pack !! ([] // "pack" // "textures" // "blocks" // "stone.png")
    = Some (File (Blob [Byte.x01])) ∧
  fs (snd (make_transparent_blocks (["pack"] // "textures" // "blocks")
             (["pack"] // "textures" // "blocks") (Sample.start Sample.own_pack)))
     !! ([] // "pack" // "textures" // "blocks" // "stone.png")
    = Some (File (Png transparent_img)).
Proof. split; [| split]; vm_compute; reflexivity. Qed.

(* ===================================================================== *)
(** * The order of the stages *)
(* ===================================================================== *)




(* ===================================================================== *)
(** * The manifest file and its UUIDs *)
(* ===================================================================== *)




Lemma startswith_inv (p s : string) : Str.startswith p s = true → ∃ r, s = p +:+ r.
Proof.
  revert s. induction p as [|c p IH]; intros s; cbn [Str.startswith].
  { by exists s. }
  destruct s as [|c' s]; [done |]. destruct (Ascii.eqb_spec c c') as [<- | ?]; [| done].
  intros H. destruct (IH _ H) as [r ->]. by exists r.
Qed.

















(* ===================================================================== *)
(** * Textures whose names differ by letter case *)
(* ===================================================================== *)

(** X2. The diamond test lowercases the stem, so the case of the letters
    in the name of a texture does not matter: of two [*.png] entries of
    the source folder whose names agree up to the case of their letters, a
    call that returns blanks both, or keeps both (each copied as it is
    where no directory has its name in the target folder). *)
Theorem textures_alike_up_to_case (src tgt : path) (w w' : world) (n1 n2 : string) :
  make_transparent_blocks src tgt w = (Ok tt, w') →
  Str.endswith ".png" n1 = true → is_Some (fs w !! (src // n1)) →
  Str.endswith ".png" n2 = true → is_Some (fs w !! (src // n2)) →
  Str.lower n1 = Str.lower n2 →
  (is_diamond n1 = false ∧ is_diamond n2 = false ∧
   fs w' !! (tgt // n1) = Some (File (Png transparent_img)) ∧
   fs w' !! (tgt // n2) = Some (File (Png transparent_img))) ∨
  (is_diamond n1 = true ∧ is_diamond n2 = true ∧
   (fs w !! (tgt // n1) ≠ Some Dir → fs w' !! (tgt // n1) = fs w !! (src // n1)) ∧
   (fs w !! (tgt // n2) ≠ Some Dir → fs w' !! (tgt // n2) = fs w !! (src // n2))).
Proof.
  intros H Hpng1 Hn1 Hpng2 Hn2 Hlow.
  pose proof (is_diamond_lower _ _ Hlow) as Hsame.
  destruct (is_diamond n1) eqn:Hd1; symmetry in Hsame.
  - right. split; [done |]. split; [done |]. split; intros Hfree.
    + by apply make_transparent_blocks_copy.
    + by apply make_transparent_blocks_copy.
  - left. split; [done |]. split; [done |].
    split; by eapply make_transparent_blocks_blank.
Qed.

Lemma textures_alike_up_to_case_witness :
  Str.lower "DIAMOND_Block.png" = Str.lower "diamond_block.png" ∧
  fs (snd (make_transparent_blocks (["vanilla"] // "blocks") ["out"] (Sample.start Sample.mixed_case)))
     !! ([] // "out" // "DIAMOND_Block.png") = Some (File (Blob [Byte.x05])) ∧
  fs (snd (make_transparent_blocks (["vanilla"] // "blocks") ["out"] (Sample.start Sample.mixed_case)))
     !! ([] // "out" // "diamond_block.png") = Some (File (Blob [Byte.x06])).
Proof.
  assert (Hlow : Str.lower "DIAMOND_Block.png" = Str.lower "diamond_block.png")
    by (vm_compute; reflexivity).
  split; [exact Hlow |].
  assert (Hrun : make_transparent_blocks (["vanilla"] // "blocks") ["out"]
                   (Sample.start Sample.mixed_case)
                 = (Ok tt, snd (make_transparent_blocks (["vanilla"] // "blocks") ["out"]
                                  (Sample.start Sample.mixed_case))))
    by (apply run_returns; vm_compute; reflexivity).
  assert (E1 : fs (Sample.start Sample.mixed_case)
                 !! ([] // "vanilla" // "blocks" // "DIAMOND_Block.png")
               = Some (File (Blob [Byte.x05]))) by (vm_compute; reflexivity).
  assert (E2 : fs (Sample.start Sample.mixed_case)
                 !! ([] // "vanilla" // "blocks" // "diamond_block.png")
               = Some (File (Blob [Byte.x06]))) by (vm_compute; reflexivity).
  destruct (textures_alike_up_to_case _ _ _ _ "DIAMOND_Block.png" "diamond_block.png" Hrun)
    as [(Hd & _) | (_ & _ & H1 & H2)];
    [vm_compute; reflexivity | rewrite E1; eauto
    | vm_compute; reflexivity | rewrite E2; eauto | exact Hlow | |].
  - vm_compute in Hd. discriminate Hd.
  - split.
    + rewrite H1; [exact E1 | vm_compute; discriminate].
    + rewrite H2; [exact E2 | vm_compute; discriminate].
Defined.
